(** * AZ Clean booking endpoint ([server.js]): model and properties

    The repository is one Express handler, [POST /api/book], which chains
    three remote collaborators (Google Calendar, Firestore, Twilio) and two
    small time helpers.  This development embeds

    - the part of ECMAScript's [Date] that [toISO] and the handler use
      (ECMA-262, section "Date Objects"): time values, local time,
      [Date.parse] of date-time strings, [toISOString], [getMinutes],
      [setMinutes];
    - [toISO] and [isAvailable];
    - the handler itself, as a program in a state-and-exception monad over
      an arbitrary world of collaborators, with a log of every call made.

    Request fields are typed as the HTTP interface documents them: text
    fields are a string or absent ([undefined]), [duration] an integer or
    absent.  A body that carries another JSON value in one of these fields
    ([null], a number where a string is expected, a fractional duration) is
    outside the model. *)

From Stdlib Require Import ZArith Lia List Ascii String Bool.
From Stdlib Require Import Sorted.
Import ListNotations.

Local Open Scope string_scope.
Local Open Scope Z_scope.

(* ================================================================= *)
(** ** JavaScript values used by the handler *)

(** A thrown JavaScript error: its constructor name and its [message]. *)
Record Error := mkError { err_name : string; err_message : string }.

(** The outcome of an expression that may throw. *)
Definition Result (A : Type) : Type := (Error + A)%type.

Definition Ok {A} (a : A) : Result A := inr a.
Definition Throw {A} (e : Error) : Result A := inl e.

(** A text value of the request body or of [process.env]: a string, or
    [undefined] when the property is absent. *)
Definition jsstr := option string.

(** [!!v]: a string is truthy unless it is empty; [undefined] is falsy. *)
Definition truthy (v : jsstr) : bool :=
  match v with
  | Some s => negb (String.eqb s "")
  | None => false
  end.

(** [v || d] for a text value [v] and a string [d]. *)
Definition or_else (v : jsstr) (d : string) : string :=
  match v with
  | Some s => if String.eqb s "" then d else s
  | None => d
  end.

(** [`${v}`]: the string conversion a template literal applies. *)
Definition tpl (v : jsstr) : string :=
  match v with
  | Some s => s
  | None => "undefined"
  end.

(** [s.startsWith(p)] on strings. *)
Definition startsWith (s p : string) : bool := String.prefix p s.

(* ================================================================= *)
(** ** ECMAScript time values (ECMA-262, Date Objects) *)

(** A time value is a number of milliseconds since 1970-01-01T00:00:00Z.
    Numbers here are integers, and arithmetic on [Z] is the arithmetic of
    the language as long as every intermediate value stays below 2^53 in
    absolute value, up to which a double holds an integer exactly.  Time
    values do (at most 8.64e15), and so does what [setMinutes] computes for
    any duration below 10^11 minutes. *)

Module ES.

Definition msPerDay : Z := 86400000.
Definition msPerHour : Z := 3600000.
Definition msPerMinute : Z := 60000.
Definition msPerSecond : Z := 1000.

Definition Day (t : Z) : Z := t / msPerDay.
Definition TimeWithinDay (t : Z) : Z := t mod msPerDay.

Definition HourFromTime (t : Z) : Z := (t / msPerHour) mod 24.
Definition MinFromTime (t : Z) : Z := (t / msPerMinute) mod 60.
Definition SecFromTime (t : Z) : Z := (t / msPerSecond) mod 60.
Definition msFromTime (t : Z) : Z := t mod msPerSecond.

Definition isLeap (y : Z) : bool :=
  ((y mod 4 =? 0) && negb (y mod 100 =? 0)) || (y mod 400 =? 0).

Definition DaysInYear (y : Z) : Z := if isLeap y then 366 else 365.

Definition DayFromYear (y : Z) : Z :=
  365 * (y - 1970) + (y - 1969) / 4 - (y - 1901) / 100 + (y - 1601) / 400.

(** The year whose first day is the latest one not after day [d]: an
    estimate from the mean year length, corrected by at most one. *)
Definition YearFromDay (d : Z) : Z :=
  let y0 := 1970 + (400 * d) / 146097 in
  if d <? DayFromYear y0 then y0 - 1
  else if DayFromYear (y0 + 1) <=? d then y0 + 1
  else y0.

Definition YearFromTime (t : Z) : Z := YearFromDay (Day t).

Definition DayWithinYear (t : Z) : Z := Day t - DayFromYear (YearFromTime t).

(** 1 in a leap year, 0 otherwise. *)
Definition leapDays (y : Z) : Z := if isLeap y then 1 else 0.

Definition InLeapYear (t : Z) : Z := leapDays (YearFromTime t).

(** Number of days of the year before month [m] (0 = January); the bounds
    of the table that defines [MonthFromTime]. *)
Definition daysBeforeMonth (leap m : Z) : Z :=
  if m <=? 0 then 0
  else if m =? 1 then 31
  else if m =? 2 then 59 + leap
  else if m =? 3 then 90 + leap
  else if m =? 4 then 120 + leap
  else if m =? 5 then 151 + leap
  else if m =? 6 then 181 + leap
  else if m =? 7 then 212 + leap
  else if m =? 8 then 243 + leap
  else if m =? 9 then 273 + leap
  else if m =? 10 then 304 + leap
  else if m =? 11 then 334 + leap
  else 365 + leap.

Definition monthOfYearDay (leap d : Z) : Z :=
  if d <? 31 then 0
  else if d <? 59 + leap then 1
  else if d <? 90 + leap then 2
  else if d <? 120 + leap then 3
  else if d <? 151 + leap then 4
  else if d <? 181 + leap then 5
  else if d <? 212 + leap then 6
  else if d <? 243 + leap then 7
  else if d <? 273 + leap then 8
  else if d <? 304 + leap then 9
  else if d <? 334 + leap then 10
  else 11.

Definition MonthFromTime (t : Z) : Z :=
  monthOfYearDay (InLeapYear t) (DayWithinYear t).

Definition DateFromTime (t : Z) : Z :=
  DayWithinYear t - daysBeforeMonth (InLeapYear t) (MonthFromTime t) + 1.

Definition DaysInMonth (y m : Z) : Z :=
  daysBeforeMonth (leapDays y) (m + 1) - daysBeforeMonth (leapDays y) m.

Definition MakeTime (hour min sec ms : Z) : Z :=
  hour * msPerHour + min * msPerMinute + sec * msPerSecond + ms.

(** [MakeDay(year, month, date)]: the day number of the first of the month,
    plus [date - 1]. *)
Definition MakeDay (year month date : Z) : Z :=
  let ym := year + month / 12 in
  let mn := month mod 12 in
  DayFromYear ym + daysBeforeMonth (leapDays ym) mn + date - 1.

Definition MakeDate (day time : Z) : Z := day * msPerDay + time.

Definition maxTime : Z := 8640000000000000.

(** [TimeClip]: [None] is NaN. *)
Definition TimeClip (t : Z) : option Z :=
  if maxTime <? Z.abs t then None else Some t.

End ES.

Import ES.

(* ================================================================= *)
(** ** Date-time strings *)

Definition digitChar (d : Z) : ascii := ascii_of_N (Z.to_N (48 + d)).

Definition digitVal (c : ascii) : option Z :=
  let n := Z.of_N (N_of_ascii c) in
  if (48 <=? n) && (n <=? 57) then Some (n - 48) else None.

(** Value of a string of decimal digits, most significant first. *)
Fixpoint digits (acc : Z) (s : string) : option Z :=
  match s with
  | EmptyString => Some acc
  | String c s' =>
      match digitVal c with
      | Some d => digits (10 * acc + d) s'
      | None => None
      end
  end.

(** The decimal field of [len] characters that starts at [pos]. *)
Definition field (s : string) (pos len : nat) : option Z :=
  digits 0 (substring pos len s).

(** Whether the character at [pos] is [c]. *)
Definition lit (s : string) (pos : nat) (c : ascii) : bool :=
  match String.get pos s with
  | Some x => Ascii.eqb x c
  | None => false
  end.

(** [n] in [w] decimal digits, zero padded. *)
Fixpoint pad (w : nat) (n : Z) : string :=
  match w with
  | O => EmptyString
  | S w' => String (digitChar ((n / 10 ^ Z.of_nat w') mod 10)) (pad w' n)
  end.

Record Fields := mkFields {
  f_year : Z; f_month : Z; f_day : Z;
  f_hour : Z; f_minute : Z; f_second : Z; f_ms : Z }.

(** Fields in the ranges of the Date Time String Format ([24:00:00] left
    aside). *)
Definition validFields (f : Fields) : bool :=
  (1 <=? f_month f) && (f_month f <=? 12) &&
  (1 <=? f_day f) && (f_day f <=? DaysInMonth (f_year f) (f_month f - 1)) &&
  (f_hour f <=? 23) && (f_minute f <=? 59) && (f_second f <=? 59).

Definition timeOfFields (f : Fields) : Z :=
  MakeDate (MakeDay (f_year f) (f_month f - 1) (f_day f))
           (MakeTime (f_hour f) (f_minute f) (f_second f) (f_ms f)).

(** [-MM-DDTHH:mm:ss] read at offset [o]. *)
Definition fieldsAt (s : string) (o : nat) (year ms : Z) : option Fields :=
  if lit s o "-" && lit s (o + 3) "-" && lit s (o + 6) "T" &&
     lit s (o + 9) ":" && lit s (o + 12) ":"
  then
    match field s (o + 1) 2, field s (o + 4) 2, field s (o + 7) 2,
          field s (o + 10) 2, field s (o + 13) 2 with
    | Some mo, Some d, Some h, Some mi, Some sec =>
        let f := mkFields year mo d h mi sec ms in
        if validFields f then Some f else None
    | _, _, _, _, _ => None
    end
  else None.

(** [YYYY-MM-DDTHH:mm:ss], no offset: a local date-time. *)
Definition parseLocal (s : string) : option Fields :=
  if Nat.eqb (String.length s) 19 then
    match field s 0 4 with
    | Some y => fieldsAt s 4 y 0
    | None => None
    end
  else None.

(** [.sssZ] read at offset [o]: the milliseconds. *)
Definition msAt (s : string) (o : nat) : option Z :=
  if lit s o "." && lit s (o + 4) "Z" then field s (o + 1) 3 else None.

(** [YYYY-MM-DDTHH:mm:ss.sssZ]. *)
Definition parseUTC (s : string) : option Fields :=
  if Nat.eqb (String.length s) 24 then
    match field s 0 4, msAt s 19 with
    | Some y, Some ms => fieldsAt s 4 y ms
    | _, _ => None
    end
  else None.

(** [+YYYYYY-MM-DDTHH:mm:ss.sssZ] and [-YYYYYY-...], the expanded years;
    [-000000] is not a year. *)
Definition parseExpandedUTC (s : string) : option Fields :=
  if Nat.eqb (String.length s) 27 then
    match field s 1 6, msAt s 22 with
    | Some y, Some ms =>
        if lit s 0 "+" then fieldsAt s 7 y ms
        else if lit s 0 "-" && negb (y =? 0) then fieldsAt s 7 (- y) ms
        else None
    | _, _ => None
    end
  else None.

(** The string [toISOString] builds for time value [t]. *)
Definition isoString (t : Z) : string :=
  let y := YearFromTime t in
  let year :=
    if (0 <=? y) && (y <=? 9999) then pad 4 y
    else String (if y <? 0 then "-"%char else "+"%char) (pad 6 (Z.abs y)) in
  String.concat ""
    [year; "-"; pad 2 (MonthFromTime t + 1); "-"; pad 2 (DateFromTime t);
     "T"; pad 2 (HourFromTime t); ":"; pad 2 (MinFromTime t);
     ":"; pad 2 (SecFromTime t); "."; pad 3 (msFromTime t); "Z"].

(* ================================================================= *)
(** ** The [Date] object in a given runtime *)

Section Runtime.

(** [LocalTZA t isUTC]: the runtime's local time zone adjustment in
    milliseconds, at UTC time [t] when [isUTC], at local time [t] otherwise.
    It is set by the host (the process's [TZ]), not by the program. *)
Variable LocalTZA : Z -> bool -> Z.

(** What [Date.parse] makes of any other string: the remaining forms of the
    Date Time String Format and whatever else the implementation accepts
    (ECMA-262 leaves the latter to it).  Left open here.  [None] is NaN. *)
Variable implParse : string -> option Z.

Definition LocalTime (t : Z) : Z := t + LocalTZA t true.
Definition UTC (t : Z) : Z := t - LocalTZA t false.

(** [Date.parse]: a date-time without offset is a local time. *)
Definition Date_parse (s : string) : option Z :=
  match parseUTC s with
  | Some f => Some (timeOfFields f)
  | None =>
      match parseExpandedUTC s with
      | Some f => Some (timeOfFields f)
      | None =>
          match parseLocal s with
          | Some f => Some (UTC (timeOfFields f))
          | None => implParse s
          end
      end
  end.

(** A [Date] object is its time value; [None] is the invalid date. *)
Definition Date := option Z.

(** [new Date(string)]. *)
Definition newDate (s : string) : Date :=
  match Date_parse s with
  | Some t => TimeClip t
  | None => None
  end.

Definition RangeError_invalid_time : Error :=
  mkError "RangeError" "Invalid time value".

(** [d.toISOString()]: throws on the invalid date. *)
Definition toISOString (d : Date) : Result string :=
  match d with
  | Some t => Ok (isoString t)
  | None => Throw RangeError_invalid_time
  end.

(** [d.getMinutes()]: minutes of the local time; [None] is NaN. *)
Definition getMinutes (d : Date) : option Z :=
  match d with
  | Some t => Some (MinFromTime (LocalTime t))
  | None => None
  end.

(** [a + b] on numbers, NaN absorbing. *)
Definition num_add (a b : option Z) : option Z :=
  match a, b with
  | Some x, Some y => Some (x + y)
  | _, _ => None
  end.

(** [d.setMinutes(min)], as ECMA-262 has it: [t] is the local time of the
    date, the new local time is [MakeDate(Day(t), MakeTime(HourFromTime(t),
    min, SecFromTime(t), msFromTime(t)))], and the date becomes
    [TimeClip(UTC(...))] of it.  The result is the date as it is
    afterwards. *)
Definition setMinutes (d : Date) (min : option Z) : Date :=
  match d, min with
  | Some t0, Some m =>
      let t := LocalTime t0 in
      let date :=
        MakeDate (Day t)
                 (MakeTime (HourFromTime t) m (SecFromTime t) (msFromTime t)) in
      TimeClip (UTC date)
  | _, _ => None
  end.

End Runtime.

(* ================================================================= *)
(** ** Request, configuration, collaborators *)

(** [req.body], after [bodyParser.json()]. *)
Record Body := mkBody {
  service : jsstr;
  date : jsstr;
  time : jsstr;
  duration : option Z;
  name : jsstr;
  phone : jsstr;
  email : jsstr }.

(** The variables of [process.env] the program reads ([PORT] and the
    credentials only matter at start-up). *)
Record ProcessEnv := mkEnv {
  env_FIREBASE_SERVICE_ACCOUNT : jsstr;
  env_GCAL_ID : jsstr;
  env_DEFAULT_TZ : jsstr;
  env_TWILIO_WHATSAPP_FROM : jsstr }.

(** The JSON document of a response. *)
Inductive Json :=
| error_json (error : string) (details : option string)
| success_json (success : bool) (eventId : string) (bookingId : option string).

Record Response := mkResponse { status : Z; json : Json }.

(** Argument of [calendar.events.list]. *)
Record ListParams := mkListParams {
  list_calendarId : string;
  timeMin : string;
  timeMax : string;
  singleEvents : bool;
  orderBy : string }.

(** The event resource the handler builds. *)
Record CalendarEvent := mkEvent {
  summary : string;
  description : string;
  start_dateTime : string;
  end_dateTime : string }.

(** Argument of [calendar.events.insert]. *)
Record InsertParams := mkInsertParams {
  insert_calendarId : string;
  resource : CalendarEvent }.

(** An event as the calendar returns it: [data.id] and the rest. *)
Record EventData := mkEventData { data_id : string; data_event : CalendarEvent }.

(** [res.data] of a list call; [items] may be absent. *)
Record ListData := mkListData { items : option (list EventData) }.

(** The document written by [db.collection('bookings').add]; [createdAt]
    is the server-timestamp sentinel, the same in every document. *)
Record BookingDoc := mkBookingDoc {
  doc_service : jsstr;
  doc_date : jsstr;
  doc_time : jsstr;
  doc_duration : Z;
  doc_name : jsstr;
  doc_phone : jsstr;
  doc_email : jsstr;
  doc_status : string }.

(** A Firestore document reference. *)
Record DocRef := mkDocRef { ref_id : string }.

(** Argument of [bookingRef.update]. *)
Record DocUpdate := mkDocUpdate { upd_status : string; upd_calendarEventId : string }.

(** Argument of [twilioClient.messages.create]. *)
Record Message := mkMessage { msg_from : string; msg_to : string; msg_body : string }.

(** The collaborators, over any state [W] of the outside world: each call
    returns normally or rejects, and moves the world. *)
Record Services (W : Type) := mkServices {
  calendar_events_list : ListParams -> W -> Result ListData * W;
  calendar_events_insert : InsertParams -> W -> Result EventData * W;
  bookings_add : BookingDoc -> W -> Result DocRef * W;
  bookingRef_update : DocRef -> DocUpdate -> W -> Result unit * W;
  messages_create : Message -> W -> Result unit * W }.

Arguments calendar_events_list {W}.
Arguments calendar_events_insert {W}.
Arguments bookings_add {W}.
Arguments bookingRef_update {W}.
Arguments messages_create {W}.

(** What the handler did, in order. *)
Inductive Effect :=
| CalendarList (p : ListParams)
| CalendarInsert (p : InsertParams)
| DatastoreAdd (d : BookingDoc)
| DatastoreUpdate (r : DocRef) (u : DocUpdate)
| MessageCreate (m : Message)
| ConsoleError (e : Error).

(** The world and the log of effects so far. *)
Record St (W : Type) := mkSt { world : W; log : list Effect }.
Arguments mkSt {W}.
Arguments world {W}.
Arguments log {W}.

(* ================================================================= *)
(** ** A monad for [async] code: state and exceptions *)

Definition M (W A : Type) : Type := St W -> Result A * St W.

Definition ret {W A} (a : A) : M W A := fun st => (Ok a, st).

Definition bind {W A B} (m : M W A) (k : A -> M W B) : M W B :=
  fun st =>
    match m st with
    | (inr a, st') => k a st'
    | (inl e, st') => (inl e, st')
    end.

(** A synchronous expression that may throw. *)
Definition lift {W A} (r : Result A) : M W A := fun st => (r, st).

(** [try { m } catch (err) { h err }]. *)
Definition try_catch {W A} (m : M W A) (h : Error -> M W A) : M W A :=
  fun st =>
    match m st with
    | (inr a, st') => (inr a, st')
    | (inl e, st') => h e st'
    end.

(** [await] of a collaborator call: the call is logged, the world moves. *)
Definition await {W A} (ef : Effect) (call : W -> Result A * W) : M W A :=
  fun st =>
    let (r, w) := call (world st) in
    (r, mkSt w (log st ++ [ef])).

Declare Scope js_scope.
Delimit Scope js_scope with js.
Notation "x <- m ;; k" := (bind m (fun x => k))
  (at level 61, m at next level, right associativity) : js_scope.
Notation "m ;;; k" := (bind m (fun _ => k))
  (at level 61, right associativity) : js_scope.
Local Open Scope js_scope.

Definition nl : string := String (ascii_of_nat 10) EmptyString.

(** [v.startsWith(p)] where [v] may be [undefined]. *)
Definition js_startsWith (v : jsstr) (p : string) : Result bool :=
  match v with
  | Some s => Ok (startsWith s p)
  | None =>
      Throw (mkError "TypeError"
               "Cannot read properties of undefined (reading 'startsWith')")
  end.

(** [phone.startsWith('+') ? phone : '+' + phone], the number the
    confirmation is addressed to (inline in the handler). *)
Definition destination (phone : jsstr) : Result string :=
  match js_startsWith phone "+" with
  | inr true => Ok (tpl phone)
  | inr false => Ok (String.append "+" (tpl phone))
  | inl e => Throw e
  end.

(* ================================================================= *)
(** ** [server.js] *)

Section Server.

Variable LocalTZA : Z -> bool -> Z.
Variable implParse : string -> option Z.
Variable env : ProcessEnv.
Variable W : Type.
Variable svc : Services W.

(** [db]: the Firestore client, or [null] when no service account is
    configured; only its presence matters. *)
Definition db : bool := truthy (env_FIREBASE_SERVICE_ACCOUNT env).

Definition CALENDAR_ID : string := or_else (env_GCAL_ID env) "primary".

Definition TWILIO_WHATSAPP_FROM : jsstr := env_TWILIO_WHATSAPP_FROM env.

(** [toISO(dateStr, timeStr, tz)]; [tz_arg = None] when the argument is
    omitted, and the default is then evaluated. *)
Definition toISO (dateStr timeStr : jsstr) (tz_arg : option string) : Result string :=
  let tz :=
    match tz_arg with
    | Some z => z
    | None => or_else (env_DEFAULT_TZ env) "Europe/Lisbon"
    end in
  let iso :=
    toISOString
      (newDate LocalTZA implParse
         (String.concat "" [tpl dateStr; "T"; tpl timeStr; ":00"])) in
  iso.

(** [isAvailable(startISO, endISO)]. *)
Definition isAvailable (startISO endISO : string) : M W bool :=
  let params := mkListParams CALENDAR_ID startISO endISO true "startTime" in
  res <- await (CalendarList params) (calendar_events_list svc params) ;;
  ret (Nat.eqb (List.length (match items res with Some l => l | None => [] end)) 0).

(** The body of the [try] block of [app.post('/api/book', ...)]. *)
Definition book_try (req : Body) : M W Response :=
  let service := service req in
  let date := date req in
  let time := time req in
  let duration := match duration req with Some d => d | None => 60 end in
  let name := name req in
  let phone := phone req in
  let email := email req in
  if negb (truthy service) || negb (truthy date) || negb (truthy time)
     || negb (truthy name) || negb (truthy phone)
  then ret (mkResponse 400 (error_json "Missing required fields" None))
  else
    startISO <- lift (toISO date time None) ;;
    let endDate := newDate LocalTZA implParse startISO in
    let endDate :=
      setMinutes LocalTZA endDate
        (num_add (getMinutes LocalTZA endDate) (Some duration)) in
    endISO <- lift (toISOString endDate) ;;
    available <- isAvailable startISO endISO ;;
    if negb available
    then ret (mkResponse 409 (error_json "Slot not available" None))
    else
      bookingRef <-
        (if db then
           let doc := mkBookingDoc service date time duration name phone email
                        "pending" in
           r <- await (DatastoreAdd doc) (bookings_add svc doc) ;;
           ret (Some r)
         else ret None) ;;
      let event :=
        mkEvent
          (String.concat "" ["AZ Clean — "; tpl service; " - "; tpl name])
          (String.concat ""
             ["Cliente: "; tpl name; nl; "Telefone: "; tpl phone; nl;
              "Email: "; or_else email "-"; nl; "Serviço: "; tpl service])
          startISO endISO in
      let params := mkInsertParams CALENDAR_ID event in
      insertRes <- await (CalendarInsert params) (calendar_events_insert svc params) ;;
      (match (if db then bookingRef else None) with
       | Some ref =>
           let upd := mkDocUpdate "confirmed" (data_id insertRes) in
           await (DatastoreUpdate ref upd) (bookingRef_update svc ref upd)
       | None => ret tt
       end) ;;;
      (if truthy TWILIO_WHATSAPP_FROM then
         let bodyMsg :=
           String.concat ""
             ["AZ Clean: Olá "; tpl name; "! Sua marcação para "; tpl service;
              " foi confirmada em "; tpl date; " às "; tpl time;
              ". Obrigado!"] in
         number <- lift (destination phone) ;;
         let msg :=
           mkMessage (tpl TWILIO_WHATSAPP_FROM)
             (String.concat "" ["whatsapp:"; number]) bodyMsg in
         await (MessageCreate msg) (messages_create svc msg)
       else ret tt) ;;;
      ret (mkResponse 200
             (success_json true (data_id insertRes)
                (option_map ref_id bookingRef))).

(** [app.post('/api/book', async (req, res) => { try {...} catch (err) {...} })]:
    the response sent for [req]. *)
Definition book (req : Body) : M W Response :=
  try_catch (book_try req)
    (fun err =>
       await (ConsoleError err) (fun w => (Ok tt, w)) ;;;
       ret (mkResponse 500 (error_json "Erro interno" (Some (err_message err))))).

End Server.

Arguments isAvailable env {W} svc startISO endISO.
Arguments book_try LocalTZA implParse env {W} svc req.
Arguments book LocalTZA implParse env {W} svc req.

(* ================================================================= *)
(** ** Vocabulary of the properties *)

(** All five required fields pass the presence test of the handler. *)
Definition hasRequired (req : Body) : bool :=
  truthy (service req) && truthy (date req) && truthy (time req)
  && truthy (name req) && truthy (phone req).

(** The duration after the destructuring default. *)
Definition durationOf (req : Body) : Z :=
  match duration req with Some d => d | None => 60 end.

Section Window.

Variable LocalTZA : Z -> bool -> Z.
Variable implParse : string -> option Z.
Variable env : ProcessEnv.

(** The end of the window as a [Date], from [startISO]. *)
Definition endDateOf (startISO : string) (d : Z) : Date :=
  let endDate := newDate LocalTZA implParse startISO in
  setMinutes LocalTZA endDate (num_add (getMinutes LocalTZA endDate) (Some d)).

(** [startISO] and [endISO] as the handler computes them. *)
Definition window (req : Body) : Result (string * string) :=
  match toISO LocalTZA implParse env (date req) (time req) None with
  | inr startISO =>
      match toISOString (endDateOf startISO (durationOf req)) with
      | inr endISO => Ok (startISO, endISO)
      | inl e => Throw e
      end
  | inl e => Throw e
  end.

End Window.

(** [env] with [DEFAULT_TZ] set to [tz]. *)
Definition withDefaultTZ (tz : jsstr) (env : ProcessEnv) : ProcessEnv :=
  mkEnv (env_FIREBASE_SERVICE_ACCOUNT env) (env_GCAL_ID env) tz
    (env_TWILIO_WHATSAPP_FROM env).

(** The events a list response carries. *)
Definition overlapping (data : ListData) : list EventData :=
  match items data with Some l => l | None => [] end.

(** The documents and calls the handler builds for a request. *)
Definition listParamsOf (env : ProcessEnv) (startISO endISO : string) : ListParams :=
  mkListParams (CALENDAR_ID env) startISO endISO true "startTime".

Definition pendingDoc (req : Body) : BookingDoc :=
  mkBookingDoc (service req) (date req) (time req) (durationOf req)
    (name req) (phone req) (email req) "pending".

Definition eventOf (req : Body) (startISO endISO : string) : CalendarEvent :=
  mkEvent
    (String.concat "" ["AZ Clean — "; tpl (service req); " - "; tpl (name req)])
    (String.concat ""
       ["Cliente: "; tpl (name req); nl; "Telefone: "; tpl (phone req); nl;
        "Email: "; or_else (email req) "-"; nl; "Serviço: "; tpl (service req)])
    startISO endISO.

Definition insertParamsOf (env : ProcessEnv) (req : Body) (startISO endISO : string)
  : InsertParams :=
  mkInsertParams (CALENDAR_ID env) (eventOf req startISO endISO).

Definition confirmationOf (env : ProcessEnv) (req : Body) (number : string) : Message :=
  mkMessage (tpl (TWILIO_WHATSAPP_FROM env))
    (String.concat "" ["whatsapp:"; number])
    (String.concat ""
       ["AZ Clean: Olá "; tpl (name req); "! Sua marcação para ";
        tpl (service req); " foi confirmada em "; tpl (date req); " às ";
        tpl (time req); ". Obrigado!"]).

(** Whether an effect is a call to the datastore. *)
Definition touchesDatastore (ef : Effect) : bool :=
  match ef with
  | DatastoreAdd _ | DatastoreUpdate _ _ => true
  | _ => false
  end.

Definition resp400 : Response :=
  mkResponse 400 (error_json "Missing required fields" None).
Definition resp409 : Response :=
  mkResponse 409 (error_json "Slot not available" None).
Definition resp500 (err : Error) : Response :=
  mkResponse 500 (error_json "Erro interno" (Some (err_message err))).
Definition resp200 (eventId : string) (bookingId : option string) : Response :=
  mkResponse 200 (success_json true eventId bookingId).

(* ================================================================= *)
(** ** Test doubles *)

(** A scripted world: what the calendar lists, which calls reject, and what
    has been written so far. *)
Module Fake.

Record World := mkWorld {
  listed : option (list EventData);
  fail_list : bool;
  fail_add : bool;
  fail_insert : bool;
  fail_update : bool;
  fail_send : bool;
  docs : list (string * string * option string);
  events : list EventData;
  outbox : list Message }.

Definition refused (what : string) : Error := mkError "Error" what.

Definition list_ (p : ListParams) (w : World) : Result ListData * World :=
  if fail_list w then (Throw (refused "calendar unreachable"), w)
  else (Ok (mkListData (listed w)), w).

Definition insert_ (p : InsertParams) (w : World) : Result EventData * World :=
  if fail_insert w then (Throw (refused "insert refused"), w)
  else
    let e := mkEventData "evt-1" (resource p) in
    (Ok e, mkWorld (listed w) (fail_list w) (fail_add w) (fail_insert w)
             (fail_update w) (fail_send w) (docs w) (events w ++ [e]) (outbox w)).

Definition add_ (d : BookingDoc) (w : World) : Result DocRef * World :=
  if fail_add w then (Throw (refused "datastore unavailable"), w)
  else
    (Ok (mkDocRef "bk-1"),
     mkWorld (listed w) (fail_list w) (fail_add w) (fail_insert w)
       (fail_update w) (fail_send w)
       (docs w ++ [("bk-1", doc_status d, None)]) (events w) (outbox w)).

Definition update_ (r : DocRef) (u : DocUpdate) (w : World) : Result unit * World :=
  if fail_update w then (Throw (refused "update refused"), w)
  else
    (Ok tt,
     mkWorld (listed w) (fail_list w) (fail_add w) (fail_insert w)
       (fail_update w) (fail_send w)
       (map (fun d : string * string * option string =>
               let '(i, st, ev) := d in
               if String.eqb i (ref_id r)
               then (i, upd_status u, Some (upd_calendarEventId u))
               else d)
            (docs w))
       (events w) (outbox w)).

Definition send_ (m : Message) (w : World) : Result unit * World :=
  if fail_send w then (Throw (refused "message refused"), w)
  else
    (Ok tt,
     mkWorld (listed w) (fail_list w) (fail_add w) (fail_insert w)
       (fail_update w) (fail_send w) (docs w) (events w) (outbox w ++ [m])).

Definition services : Services World :=
  mkServices World list_ insert_ add_ update_ send_.

(** Nothing listed, nothing fails, nothing written yet. *)
Definition quiet : World :=
  mkWorld (Some []) false false false false false [] [] [].

Definition start (w : World) : St World := mkSt w [].

(** A runtime on UTC, with no parsing beyond the standard format. *)
Definition utc (t : Z) (isUTC : bool) : Z := 0.
Definition strict (s : string) : option Z := None.

(** Lisbon civil time under the rules of 2025: one hour ahead of UTC from
    30 March 01:00 UTC to 26 October 01:00 UTC.  A local time that the
    change skips or repeats takes the offset in force before the change. *)
Definition lisbon2025 (t : Z) (isUTC : bool) : Z :=
  let summerStart := MakeDate (MakeDay 2025 2 30) (MakeTime 1 0 0 0) in
  let summerEnd := MakeDate (MakeDay 2025 9 26) (MakeTime 1 0 0 0) in
  let t' := if isUTC then t else t - msPerHour in
  if (summerStart <=? t') && (t' <? summerEnd) then msPerHour else 0.

Definition allOn : ProcessEnv :=
  mkEnv (Some "{...}") None None (Some "whatsapp:+14155238886").
Definition noDatastore : ProcessEnv :=
  mkEnv None None None (Some "whatsapp:+14155238886").
Definition bare : ProcessEnv := mkEnv None None None None.

(** The end-to-end example of the specification. *)
Definition ana : Body :=
  mkBody (Some "Limpeza") (Some "2025-06-01") (Some "10:00") (Some 60)
    (Some "Ana") (Some "351911111111") None.

(** The same customer on the night the clocks go back. *)
Definition autumn : Body :=
  mkBody (Some "Limpeza") (Some "2025-10-26") (Some "01:30") (Some 60)
    (Some "Ana") (Some "351911111111") None.

(** [ana] without a service, and with an empty one. *)
Definition noService : Body :=
  mkBody None (Some "2025-06-01") (Some "10:00") (Some 60)
    (Some "Ana") (Some "351911111111") None.
Definition emptyService : Body :=
  mkBody (Some "") (Some "2025-06-01") (Some "10:00") (Some 60)
    (Some "Ana") (Some "351911111111") None.

(** An event already in the window. *)
Definition taken : EventData :=
  mkEventData "evt-0"
    (mkEvent "Outro cliente" "" "2025-06-01T10:30:00.000Z"
       "2025-06-01T11:30:00.000Z").

Definition busy : World :=
  mkWorld (Some [taken]) false false false false false [] [] [].
Definition insertFails : World :=
  mkWorld (Some []) false false true false false [] [] [].
Definition sendFails : World :=
  mkWorld (Some []) false false false false true [] [] [].

Definition anaStart : string := "2025-06-01T10:00:00.000Z".
Definition anaEnd : string := "2025-06-01T11:00:00.000Z".

End Fake.

(* ================================================================= *)
(** ** The handler by stages *)

(** The stages of [book_try] after the availability check, named so that
    runs can be followed one collaborator call at a time; [book_try_stages]
    below shows that [book_try] is their composition. *)
Section Stages.

Variable env : ProcessEnv.
Variable W : Type.
Variable svc : Services W.
Variable req : Body.
Variables startISO endISO : string.

(** 2) store in Firestore (optional). *)
Definition persist : M W (option DocRef) :=
  if db env then
    (r <- await (DatastoreAdd (pendingDoc req)) (bookings_add svc (pendingDoc req)) ;;
     ret (Some r))
  else ret None.

(** 3) create event on calendar. *)
Definition insertEvent : M W EventData :=
  await (CalendarInsert (insertParamsOf env req startISO endISO))
    (calendar_events_insert svc (insertParamsOf env req startISO endISO)).

(** Update Firestore with event id. *)
Definition confirm (bookingRef : option DocRef) (insertRes : EventData) : M W unit :=
  match (if db env then bookingRef else None) with
  | Some ref =>
      await (DatastoreUpdate ref (mkDocUpdate "confirmed" (data_id insertRes)))
        (bookingRef_update svc ref (mkDocUpdate "confirmed" (data_id insertRes)))
  | None => ret tt
  end.

(** 4) send WhatsApp confirmation via Twilio. *)
Definition notify : M W unit :=
  if truthy (TWILIO_WHATSAPP_FROM env) then
    (number <- lift (destination (phone req)) ;;
     await (MessageCreate (confirmationOf env req number))
       (messages_create svc (confirmationOf env req number)))
  else ret tt.

Definition afterCheck : M W Response :=
  bookingRef <- persist ;;
  insertRes <- insertEvent ;;
  confirm bookingRef insertRes ;;;
  notify ;;;
  ret (resp200 (data_id insertRes) (option_map ref_id bookingRef)).

End Stages.

Arguments persist env {W} svc req.
Arguments insertEvent env {W} svc req startISO endISO.
Arguments confirm env {W} svc bookingRef insertRes.
Arguments notify env {W} svc req.
Arguments afterCheck env {W} svc req startISO endISO.

(* ================================================================= *)
(** ** Every way a run can go *)

(** The calls of a successful run up to the notification: the list query,
    the datastore write when there is a datastore, the insert, and the
    update of the document written. *)
Definition callsUpToUpdate (env : ProcessEnv) (req : Body)
    (startISO endISO : string) (bookingRef : option DocRef) (ev : EventData)
  : list Effect :=
  [CalendarList (listParamsOf env startISO endISO)]
  ++ match bookingRef with
     | Some _ => [DatastoreAdd (pendingDoc req)]
     | None => []
     end
  ++ [CalendarInsert (insertParamsOf env req startISO endISO)]
  ++ match bookingRef with
     | Some ref =>
         [DatastoreUpdate ref (mkDocUpdate "confirmed" (data_id ev))]
     | None => []
     end.

(** The calls up to the insert. *)
Definition callsUpToInsert (env : ProcessEnv) (req : Body)
    (startISO endISO : string) : list Effect :=
  [CalendarList (listParamsOf env startISO endISO)]
  ++ (if db env then [DatastoreAdd (pendingDoc req)] else [])
  ++ [CalendarInsert (insertParamsOf env req startISO endISO)].

Section Outcomes.

Variable LocalTZA : Z -> bool -> Z.
Variable implParse : string -> option Z.
Variable env : ProcessEnv.
Variable W : Type.
Variable svc : Services W.
Variable req : Body.
Variable st : St W.

(** [Outcome resp calls]: the run of the handler on [req] from [st] answers
    [resp] after making [calls].  One constructor for each place where the
    handler returns or an [await] rejects. *)
Inductive Outcome : Response -> list Effect -> Prop :=
| missing_fields :
    hasRequired req = false ->
    Outcome resp400 []
| invalid_time (err : Error) :
    hasRequired req = true ->
    window LocalTZA implParse env req = Throw err ->
    Outcome (resp500 err) [ConsoleError err]
| list_rejected (startISO endISO : string) (err : Error) :
    hasRequired req = true ->
    window LocalTZA implParse env req = Ok (startISO, endISO) ->
    fst (calendar_events_list svc (listParamsOf env startISO endISO) (world st))
    = Throw err ->
    Outcome (resp500 err)
      [CalendarList (listParamsOf env startISO endISO); ConsoleError err]
| slot_taken (startISO endISO : string) (data : ListData) :
    hasRequired req = true ->
    window LocalTZA implParse env req = Ok (startISO, endISO) ->
    fst (calendar_events_list svc (listParamsOf env startISO endISO) (world st))
    = Ok data ->
    overlapping data <> [] ->
    Outcome resp409 [CalendarList (listParamsOf env startISO endISO)]
| add_rejected (startISO endISO : string) (data : ListData) (err : Error) :
    hasRequired req = true ->
    window LocalTZA implParse env req = Ok (startISO, endISO) ->
    fst (calendar_events_list svc (listParamsOf env startISO endISO) (world st))
    = Ok data ->
    overlapping data = [] ->
    db env = true ->
    Outcome (resp500 err)
      [CalendarList (listParamsOf env startISO endISO);
       DatastoreAdd (pendingDoc req); ConsoleError err]
| insert_rejected (startISO endISO : string) (data : ListData) (err : Error) :
    hasRequired req = true ->
    window LocalTZA implParse env req = Ok (startISO, endISO) ->
    fst (calendar_events_list svc (listParamsOf env startISO endISO) (world st))
    = Ok data ->
    overlapping data = [] ->
    Outcome (resp500 err)
      (callsUpToInsert env req startISO endISO ++ [ConsoleError err])
| update_rejected (startISO endISO : string) (data : ListData)
    (ref : DocRef) (ev : EventData) (err : Error) :
    hasRequired req = true ->
    window LocalTZA implParse env req = Ok (startISO, endISO) ->
    fst (calendar_events_list svc (listParamsOf env startISO endISO) (world st))
    = Ok data ->
    overlapping data = [] ->
    db env = true ->
    Outcome (resp500 err)
      (callsUpToUpdate env req startISO endISO (Some ref) ev
       ++ [ConsoleError err])
| send_rejected (startISO endISO : string) (data : ListData)
    (bookingRef : option DocRef) (ev : EventData) (number : string)
    (err : Error) :
    hasRequired req = true ->
    window LocalTZA implParse env req = Ok (startISO, endISO) ->
    fst (calendar_events_list svc (listParamsOf env startISO endISO) (world st))
    = Ok data ->
    overlapping data = [] ->
    (db env = true <-> bookingRef <> None) ->
    truthy (TWILIO_WHATSAPP_FROM env) = true ->
    destination (phone req) = Ok number ->
    Outcome (resp500 err)
      (callsUpToUpdate env req startISO endISO bookingRef ev
       ++ [MessageCreate (confirmationOf env req number); ConsoleError err])
| booked_and_notified (startISO endISO : string) (data : ListData)
    (bookingRef : option DocRef) (ev : EventData) (number : string) :
    hasRequired req = true ->
    window LocalTZA implParse env req = Ok (startISO, endISO) ->
    fst (calendar_events_list svc (listParamsOf env startISO endISO) (world st))
    = Ok data ->
    overlapping data = [] ->
    (db env = true <-> bookingRef <> None) ->
    truthy (TWILIO_WHATSAPP_FROM env) = true ->
    destination (phone req) = Ok number ->
    Outcome (resp200 (data_id ev) (option_map ref_id bookingRef))
      (callsUpToUpdate env req startISO endISO bookingRef ev
       ++ [MessageCreate (confirmationOf env req number)])
| booked (startISO endISO : string) (data : ListData)
    (bookingRef : option DocRef) (ev : EventData) :
    hasRequired req = true ->
    window LocalTZA implParse env req = Ok (startISO, endISO) ->
    fst (calendar_events_list svc (listParamsOf env startISO endISO) (world st))
    = Ok data ->
    overlapping data = [] ->
    (db env = true <-> bookingRef <> None) ->
    truthy (TWILIO_WHATSAPP_FROM env) = false ->
    Outcome (resp200 (data_id ev) (option_map ref_id bookingRef))
      (callsUpToUpdate env req startISO endISO bookingRef ev).

End Outcomes.

Arguments Outcome LocalTZA implParse env {W} svc req st _ _.

(** [phone.startsWith('+') ? phone : '+' + phone] for a phone that is a
    string. *)
Definition normalized (phone : string) : string :=
  if startsWith phone "+" then phone else String.append "+" phone.

(** The [to] of every message among the calls, in order. *)
Fixpoint sentTo (calls : list Effect) : list string :=
  match calls with
  | [] => []
  | MessageCreate m :: rest => msg_to m :: sentTo rest
  | _ :: rest => sentTo rest
  end.

(** The place of a call in the handler, in the order of the source. *)
Definition placeOf (ef : Effect) : nat :=
  match ef with
  | CalendarList _ => 1
  | DatastoreAdd _ => 2
  | CalendarInsert _ => 3
  | DatastoreUpdate _ _ => 4
  | MessageCreate _ => 5
  | ConsoleError _ => 6
  end.

Definition isList (ef : Effect) : bool :=
  match ef with CalendarList _ => true | _ => false end.
Definition isAdd (ef : Effect) : bool :=
  match ef with DatastoreAdd _ => true | _ => false end.
Definition isInsert (ef : Effect) : bool :=
  match ef with CalendarInsert _ => true | _ => false end.
Definition isUpdate (ef : Effect) : bool :=
  match ef with DatastoreUpdate _ _ => true | _ => false end.
Definition isMessage (ef : Effect) : bool :=
  match ef with MessageCreate _ => true | _ => false end.
Definition isConsoleError (ef : Effect) : bool :=
  match ef with ConsoleError _ => true | _ => false end.

(** More test doubles: worlds in which one call rejects, and a request
    whose date is no date. *)
Module Scenario.

Definition listFails : Fake.World :=
  Fake.mkWorld (Some []) true false false false false [] [] [].
Definition addFails : Fake.World :=
  Fake.mkWorld (Some []) false true false false false [] [] [].
Definition updateFails : Fake.World :=
  Fake.mkWorld (Some []) false false false true false [] [] [].

Definition noDate : Body :=
  mkBody (Some "Limpeza") (Some "amanhã") (Some "10:00") (Some 60)
    (Some "Ana") (Some "351911111111") None.

(** The two phone numbers of the specification. *)
Definition plainPhone : Body :=
  mkBody (Some "Limpeza") (Some "2025-06-01") (Some "10:00") (Some 60)
    (Some "Ana") (Some "351912345678") None.
Definition plusPhone : Body :=
  mkBody (Some "Limpeza") (Some "2025-06-01") (Some "10:00") (Some 60)
    (Some "Ana") (Some "+351912345678") None.

End Scenario.

(* ================================================================= *)
(** ** The calendar: years, months, days *)

Lemma DaysInYear_cases (y : Z) : leapDays y = 0 \/ leapDays y = 1.
Proof. unfold leapDays. destruct (isLeap y); auto. Qed.

Lemma DaysInYear_leapDays (y : Z) : DaysInYear y = 365 + leapDays y.
Proof. unfold DaysInYear, leapDays. destruct (isLeap y); reflexivity. Qed.

Lemma DayFromYear_succ (y : Z) :
  DayFromYear (y + 1) = DayFromYear y + DaysInYear y.
Proof.
  rewrite DaysInYear_leapDays. unfold DayFromYear, leapDays, isLeap.
  replace (y + 1 - 1969) with (y - 1969 + 1) by lia.
  replace (y + 1 - 1901) with (y - 1901 + 1) by lia.
  replace (y + 1 - 1601) with (y - 1601 + 1) by lia.
  destruct (Z.eqb_spec (y mod 4) 0) as [E4|E4];
  destruct (Z.eqb_spec (y mod 100) 0) as [E100|E100];
  destruct (Z.eqb_spec (y mod 400) 0) as [E400|E400]; cbn [andb orb negb];
  try (Z.div_mod_to_equations; lia).
Qed.

Lemma YearFromDay_spec (d : Z) :
  DayFromYear (YearFromDay d) <= d < DayFromYear (YearFromDay d + 1).
Proof.
  unfold YearFromDay.
  set (y0 := 1970 + 400 * d / 146097).
  assert (B : forall y, 146097 * (y - 1970) - 506 <= 400 * DayFromYear y
                        <= 146097 * (y - 1970) + 589).
  { intros y. unfold DayFromYear. Z.div_mod_to_equations. lia. }
  assert (E : 146097 * (y0 - 1970) <= 400 * d < 146097 * (y0 - 1970) + 146097).
  { unfold y0. Z.div_mod_to_equations. lia. }
  pose proof (B (y0 - 1)) as B1. pose proof (B y0) as B2.
  pose proof (B (y0 + 1)) as B3. pose proof (B (y0 + 2)) as B4.
  destruct (Z.ltb_spec d (DayFromYear y0)).
  - replace (y0 - 1 + 1) with y0 by lia. lia.
  - destruct (Z.leb_spec (DayFromYear (y0 + 1)) d).
    + replace (y0 + 1 + 1) with (y0 + 2) by lia. lia.
    + lia.
Qed.

Lemma DayWithinYear_range (t : Z) :
  0 <= DayWithinYear t < 365 + InLeapYear t.
Proof.
  unfold DayWithinYear, InLeapYear, YearFromTime.
  pose proof (YearFromDay_spec (Day t)) as H.
  rewrite DayFromYear_succ, DaysInYear_leapDays in H. lia.
Qed.

Lemma monthOfYearDay_spec (leap d : Z) :
  (leap = 0 \/ leap = 1) -> 0 <= d < 365 + leap ->
  let m := monthOfYearDay leap d in
  0 <= m <= 11
  /\ daysBeforeMonth leap m <= d < daysBeforeMonth leap (m + 1).
Proof.
  intros L R. unfold monthOfYearDay.
  repeat match goal with
         | |- context [?a <? ?b] => destruct (Z.ltb_spec a b)
         end;
    cbv zeta; (split; [lia|]); vm_compute daysBeforeMonth;
    destruct L; subst leap; cbn; lia.
Qed.

Lemma MonthFromTime_range (t : Z) : 0 <= MonthFromTime t <= 11.
Proof.
  unfold MonthFromTime.
  apply (monthOfYearDay_spec (InLeapYear t) (DayWithinYear t)).
  - apply DaysInYear_cases.
  - apply DayWithinYear_range.
Qed.

Lemma DateFromTime_range (t : Z) :
  1 <= DateFromTime t <= DaysInMonth (YearFromTime t) (MonthFromTime t).
Proof.
  unfold DateFromTime, DaysInMonth, MonthFromTime.
  fold (InLeapYear t).
  pose proof (monthOfYearDay_spec (InLeapYear t) (DayWithinYear t)
                (DaysInYear_cases _) (DayWithinYear_range t)) as [_ H].
  lia.
Qed.

Lemma MakeDay_of_time (t : Z) :
  MakeDay (YearFromTime t) (MonthFromTime t) (DateFromTime t) = Day t.
Proof.
  unfold MakeDay. pose proof (MonthFromTime_range t) as M.
  rewrite Z.div_small, Z.mod_small by lia. rewrite Z.add_0_r.
  unfold DateFromTime, DayWithinYear, InLeapYear. lia.
Qed.

Lemma MakeTime_of_time (t : Z) :
  MakeTime (HourFromTime t) (MinFromTime t) (SecFromTime t) (msFromTime t)
  = TimeWithinDay t.
Proof.
  unfold MakeTime, HourFromTime, MinFromTime, SecFromTime, msFromTime,
    TimeWithinDay, msPerHour, msPerMinute, msPerSecond, msPerDay.
  change 86400000 with (1000 * (60 * (60 * 24))).
  rewrite (Z.rem_mul_r t 1000) by lia.
  rewrite (Z.rem_mul_r (t / 1000) 60) by lia.
  rewrite (Z.rem_mul_r (t / 1000 / 60) 60) by lia.
  rewrite !Z.div_div by lia.
  change (1000 * 60 * 60) with 3600000. change (1000 * 60) with 60000.
  lia.
Qed.

Lemma MakeDate_of_time (t : Z) : MakeDate (Day t) (TimeWithinDay t) = t.
Proof.
  unfold MakeDate, Day, TimeWithinDay, msPerDay.
  Z.div_mod_to_equations. lia.
Qed.

Lemma time_fields_range (t : Z) :
  0 <= HourFromTime t <= 23 /\ 0 <= MinFromTime t <= 59
  /\ 0 <= SecFromTime t <= 59 /\ 0 <= msFromTime t <= 999.
Proof.
  unfold HourFromTime, MinFromTime, SecFromTime, msFromTime, msPerSecond.
  repeat split; Z.div_mod_to_equations; lia.
Qed.

Lemma YearFromTime_range (t : Z) :
  Z.abs t <= maxTime -> -271821 <= YearFromTime t <= 275760.
Proof.
  intros H. unfold YearFromTime.
  pose proof (YearFromDay_spec (Day t)) as S.
  assert (D : -100000000 <= Day t <= 100000000).
  { unfold Day, msPerDay. unfold maxTime in H. Z.div_mod_to_equations. lia. }
  revert S. generalize (YearFromDay (Day t)). intros y S.
  unfold DayFromYear in S. Z.div_mod_to_equations. lia.
Qed.

(* ================================================================= *)
(** ** Reading back what [toISOString] writes *)

Lemma digitVal_digitChar (d : Z) :
  0 <= d <= 9 -> digitVal (digitChar d) = Some d.
Proof.
  intros H.
  assert (C : d = 0 \/ d = 1 \/ d = 2 \/ d = 3 \/ d = 4 \/ d = 5 \/ d = 6
              \/ d = 7 \/ d = 8 \/ d = 9) by lia.
  repeat (destruct C as [C|C]; [subst; reflexivity|]). subst. reflexivity.
Qed.

Lemma pad_length (w : nat) (n : Z) : String.length (pad w n) = w.
Proof. induction w; simpl; congruence. Qed.

Lemma digits_pad (w : nat) (n acc : Z) :
  digits acc (pad w n) = Some (acc * 10 ^ Z.of_nat w + n mod 10 ^ Z.of_nat w).
Proof.
  revert acc. induction w as [|w IH]; intros acc.
  - simpl. rewrite Z.mod_1_r. f_equal. lia.
  - cbn [pad digits].
    rewrite digitVal_digitChar
      by (pose proof (Z.mod_pos_bound (n / 10 ^ Z.of_nat w) 10); lia).
    rewrite IH. f_equal.
    rewrite Nat2Z.inj_succ, Z.pow_succ_r by lia.
    assert (P : 0 < 10 ^ Z.of_nat w) by (apply Z.pow_pos_nonneg; lia).
    rewrite (Z.mul_comm 10 (10 ^ Z.of_nat w)).
    rewrite (Z.rem_mul_r n (10 ^ Z.of_nat w) 10) by lia.
    ring.
Qed.

Lemma field_pad (w : nat) (n : Z) :
  0 <= n < 10 ^ Z.of_nat w -> digits 0 (pad w n) = Some n.
Proof.
  intros H. rewrite digits_pad. f_equal. rewrite Z.mod_small by lia. lia.
Qed.

Ltac chars s n :=
  match n with
  | O => destruct s; [|discriminate]
  | S ?k =>
      let a := fresh "a" in
      destruct s as [|a s]; [discriminate|]; chars s k
  end.

Lemma parseUTC_layout (Y M D h m s f : string) (y mo d hh mi ss ms : Z) :
  String.length Y = 4%nat ->
  String.length M = 2%nat -> String.length D = 2%nat ->
  String.length h = 2%nat -> String.length m = 2%nat ->
  String.length s = 2%nat -> String.length f = 3%nat ->
  digits 0 Y = Some y -> digits 0 M = Some mo -> digits 0 D = Some d ->
  digits 0 h = Some hh -> digits 0 m = Some mi -> digits 0 s = Some ss ->
  digits 0 f = Some ms ->
  parseUTC
    (String.concat ""
       [Y; "-"; M; "-"; D; "T"; h; ":"; m; ":"; s; "."; f; "Z"])
  = if validFields (mkFields y mo d hh mi ss ms)
    then Some (mkFields y mo d hh mi ss ms) else None.
Proof.
  intros LY LM LD Lh Lm Ls Lf HY HM HD Hh Hm Hs Hf.
  chars Y 4%nat. chars M 2%nat. chars D 2%nat. chars h 2%nat.
  chars m 2%nat. chars s 2%nat. chars f 3%nat.
  unfold parseUTC, msAt, fieldsAt, field, lit.
  cbn -[digits validFields].
  rewrite HY, Hf, HM, HD, Hh, Hm, Hs. reflexivity.
Qed.

Lemma parseExpandedUTC_layout
    (sign : ascii) (Y M D h m s f : string) (y mo d hh mi ss ms : Z) :
  String.length Y = 6%nat ->
  String.length M = 2%nat -> String.length D = 2%nat ->
  String.length h = 2%nat -> String.length m = 2%nat ->
  String.length s = 2%nat -> String.length f = 3%nat ->
  digits 0 Y = Some y -> digits 0 M = Some mo -> digits 0 D = Some d ->
  digits 0 h = Some hh -> digits 0 m = Some mi -> digits 0 s = Some ss ->
  digits 0 f = Some ms ->
  let str :=
    String sign
      (String.concat ""
         [Y; "-"; M; "-"; D; "T"; h; ":"; m; ":"; s; "."; f; "Z"]) in
  parseUTC str = None
  /\ parseExpandedUTC str
     = if Ascii.eqb sign "+" then
         if validFields (mkFields y mo d hh mi ss ms)
         then Some (mkFields y mo d hh mi ss ms) else None
       else if Ascii.eqb sign "-" && negb (y =? 0) then
         if validFields (mkFields (- y) mo d hh mi ss ms)
         then Some (mkFields (- y) mo d hh mi ss ms) else None
       else None.
Proof.
  intros LY LM LD Lh Lm Ls Lf HY HM HD Hh Hm Hs Hf.
  chars Y 6%nat. chars M 2%nat. chars D 2%nat. chars h 2%nat.
  chars m 2%nat. chars s 2%nat. chars f 3%nat.
  split; [reflexivity|].
  unfold parseExpandedUTC, msAt, fieldsAt, field, lit.
  cbn -[digits validFields Ascii.eqb Z.eqb].
  rewrite HY, Hf, HM, HD, Hh, Hm, Hs. reflexivity.
Qed.

Lemma validFields_of_time (t : Z) :
  validFields
    (mkFields (YearFromTime t) (MonthFromTime t + 1) (DateFromTime t)
       (HourFromTime t) (MinFromTime t) (SecFromTime t) (msFromTime t))
  = true.
Proof.
  unfold validFields. cbn [f_year f_month f_day f_hour f_minute f_second].
  pose proof (MonthFromTime_range t). pose proof (DateFromTime_range t).
  pose proof (time_fields_range t) as [? [? [? ?]]].
  replace (MonthFromTime t + 1 - 1) with (MonthFromTime t) by lia.
  repeat (apply andb_true_intro; split); apply Z.leb_le; lia.
Qed.

Lemma timeOfFields_of_time (t : Z) :
  timeOfFields
    (mkFields (YearFromTime t) (MonthFromTime t + 1) (DateFromTime t)
       (HourFromTime t) (MinFromTime t) (SecFromTime t) (msFromTime t))
  = t.
Proof.
  unfold timeOfFields.
  cbn [f_year f_month f_day f_hour f_minute f_second f_ms].
  replace (MonthFromTime t + 1 - 1) with (MonthFromTime t) by lia.
  rewrite MakeDay_of_time, MakeTime_of_time. apply MakeDate_of_time.
Qed.

Section RoundTrip.

Variable LocalTZA : Z -> bool -> Z.
Variable implParse : string -> option Z.

(** [Date.parse(x.toISOString())] is the time value of [x]. *)
Lemma Date_parse_isoString (t : Z) :
  Z.abs t <= maxTime ->
  Date_parse LocalTZA implParse (isoString t) = Some t.
Proof.
  intros R. unfold Date_parse, isoString. cbv zeta.
  pose proof (YearFromTime_range t R) as Y.
  pose proof (MonthFromTime_range t) as Mo.
  pose proof (DateFromTime_range t) as Da.
  pose proof (time_fields_range t) as [Ho [Mi [Se Ms]]].
  assert (D31 : DateFromTime t <= 31).
  { destruct Da as [_ Da]. unfold DaysInMonth in Da.
    revert Da. generalize (DateFromTime t). intros d.
    destruct (DaysInYear_cases (YearFromTime t)) as [L|L]; rewrite L;
      assert (C : MonthFromTime t = 0 \/ MonthFromTime t = 1
                  \/ MonthFromTime t = 2 \/ MonthFromTime t = 3
                  \/ MonthFromTime t = 4 \/ MonthFromTime t = 5
                  \/ MonthFromTime t = 6 \/ MonthFromTime t = 7
                  \/ MonthFromTime t = 8 \/ MonthFromTime t = 9
                  \/ MonthFromTime t = 10 \/ MonthFromTime t = 11) by lia;
      repeat (destruct C as [C|C]; [rewrite C; cbn; lia|]);
      rewrite C; cbn; lia. }
  destruct ((0 <=? YearFromTime t) && (YearFromTime t <=? 9999)) eqn:E.
  - apply andb_prop in E. destruct E as [E1 E2].
    apply Z.leb_le in E1. apply Z.leb_le in E2.
    rewrite (parseUTC_layout _ _ _ _ _ _ _
               (YearFromTime t) (MonthFromTime t + 1) (DateFromTime t)
               (HourFromTime t) (MinFromTime t) (SecFromTime t)
               (msFromTime t));
      try apply pad_length; try (apply field_pad; simpl Z.of_nat; lia).
    rewrite validFields_of_time, timeOfFields_of_time. reflexivity.
  - destruct (parseExpandedUTC_layout
                (if YearFromTime t <? 0 then "-"%char else "+"%char)
                (pad 6 (Z.abs (YearFromTime t)))
                (pad 2 (MonthFromTime t + 1)) (pad 2 (DateFromTime t))
                (pad 2 (HourFromTime t)) (pad 2 (MinFromTime t))
                (pad 2 (SecFromTime t)) (pad 3 (msFromTime t))
                (Z.abs (YearFromTime t)) (MonthFromTime t + 1)
                (DateFromTime t) (HourFromTime t) (MinFromTime t)
                (SecFromTime t) (msFromTime t)) as [P1 P2];
      try apply pad_length; try (apply field_pad; simpl Z.of_nat; lia).
    cbv zeta in P1, P2.
    change (String.concat ""
              (String (if YearFromTime t <? 0 then "-"%char else "+"%char)
                 (pad 6 (Z.abs (YearFromTime t))) :: ?l))
      with (String (if YearFromTime t <? 0 then "-"%char else "+"%char)
              (String.concat "" (pad 6 (Z.abs (YearFromTime t)) :: l))).
    rewrite P1, P2.
    destruct (Z.ltb_spec (YearFromTime t) 0) as [N|N].
    + cbn [Ascii.eqb Bool.eqb andb].
      destruct (Z.eqb_spec (Z.abs (YearFromTime t)) 0); [lia|].
      cbn [negb]. replace (- Z.abs (YearFromTime t)) with (YearFromTime t) by lia.
      rewrite validFields_of_time, timeOfFields_of_time. reflexivity.
    + cbn [Ascii.eqb Bool.eqb andb].
      replace (Z.abs (YearFromTime t)) with (YearFromTime t) by lia.
      rewrite validFields_of_time, timeOfFields_of_time. reflexivity.
Qed.

Lemma newDate_isoString (t : Z) :
  Z.abs t <= maxTime ->
  newDate LocalTZA implParse (isoString t) = Some t.
Proof.
  intros R. unfold newDate. rewrite Date_parse_isoString by exact R.
  unfold TimeClip. destruct (Z.ltb_spec maxTime (Z.abs t)); [lia|reflexivity].
Qed.

End RoundTrip.

(* ================================================================= *)
(** ** Presence test and validation *)

Lemma truthy_iff (v : jsstr) :
  truthy v = true <-> exists s, v = Some s /\ s <> "".
Proof.
  destruct v as [s|]; simpl.
  - rewrite negb_true_iff, String.eqb_neq. split.
    + intros H. now exists s.
    + intros [s' [E H]]. now inversion E; subst.
  - split; [discriminate | intros [s [E _]]; discriminate].
Qed.

Lemma hasRequired_false_iff (req : Body) :
  hasRequired req = false <->
  truthy (service req) = false \/ truthy (date req) = false \/
  truthy (time req) = false \/ truthy (name req) = false \/
  truthy (phone req) = false.
Proof.
  unfold hasRequired. repeat rewrite andb_false_iff. tauto.
Qed.

Lemma presence_test (req : Body) :
  negb (truthy (service req)) || negb (truthy (date req))
  || negb (truthy (time req)) || negb (truthy (name req))
  || negb (truthy (phone req)) = negb (hasRequired req).
Proof.
  unfold hasRequired. repeat rewrite negb_andb. reflexivity.
Qed.

Section Validation.

Variable LocalTZA : Z -> bool -> Z.
Variable implParse : string -> option Z.
Variable env : ProcessEnv.
Variable W : Type.
Variable svc : Services W.

(** A request that fails the presence test is answered 400 on the spot:
    the state, world and log, is the one the handler started from. *)
Lemma book_rejects (req : Body) (st : St W) :
  hasRequired req = false ->
  book LocalTZA implParse env svc req st = (Ok resp400, st).
Proof.
  intros H. unfold book, try_catch, book_try.
  rewrite presence_test, H. reflexivity.
Qed.

(** C2.  A request with at least one of [service], [date], [time], [name],
    [phone] missing gets 400 with the error message, and the handler does
    nothing else: the world and the log of calls are unchanged, so there is
    no calendar query, no calendar insert, no datastore write and no
    notification. *)
Theorem book_missing_field (req : Body) (st : St W) :
  service req = None \/ date req = None \/ time req = None \/
  name req = None \/ phone req = None ->
  book LocalTZA implParse env svc req st
  = (Ok (mkResponse 400 (error_json "Missing required fields" None)), st).
Proof.
  intros H. apply book_rejects. apply hasRequired_false_iff.
  destruct H as [H|[H|[H|[H|H]]]]; rewrite H; simpl; tauto.
Qed.

(** C10.  A required field that is present but is the empty string is
    treated exactly as a missing one: the answer is the same 400, the world
    and the log of calls are unchanged, and the run is the very run of a
    request in which a required field is absent. *)
Theorem book_empty_field (req : Body) (st : St W) :
  service req = Some "" \/ date req = Some "" \/ time req = Some "" \/
  name req = Some "" \/ phone req = Some "" ->
  book LocalTZA implParse env svc req st
  = (Ok (mkResponse 400 (error_json "Missing required fields" None)), st)
  /\ forall req',
       service req' = None \/ date req' = None \/ time req' = None \/
       name req' = None \/ phone req' = None ->
       book LocalTZA implParse env svc req st
       = book LocalTZA implParse env svc req' st.
Proof.
  intros H.
  assert (R : hasRequired req = false).
  { apply hasRequired_false_iff.
    destruct H as [H|[H|[H|[H|H]]]]; rewrite H; simpl; tauto. }
  split.
  - now apply book_rejects.
  - intros req' H'. rewrite (book_rejects req st R).
    symmetry. apply book_rejects. apply hasRequired_false_iff.
    destruct H' as [H'|[H'|[H'|[H'|H']]]]; rewrite H'; simpl; tauto.
Qed.

End Validation.

(* ================================================================= *)
(** ** [toISO] and [isAvailable] *)

(** C9.  [toISO] does not look at its time-zone argument nor at the
    configured default zone: whatever the two are, given or omitted, the
    same date and time give the same result.  The same holds of a whole run
    of the handler: changing [DEFAULT_TZ] changes neither the response nor
    any call made. *)
Theorem toISO_ignores_timezone
    (LocalTZA : Z -> bool -> Z) (implParse : string -> option Z)
    (env1 env2 : ProcessEnv) (dateStr timeStr : jsstr)
    (tz1 tz2 : option string) :
  toISO LocalTZA implParse env1 dateStr timeStr tz1
  = toISO LocalTZA implParse env2 dateStr timeStr tz2
  /\ forall (W : Type) (svc : Services W) (req : Body) (st : St W)
            (tz : jsstr),
       book LocalTZA implParse (withDefaultTZ tz env1) svc req st
       = book LocalTZA implParse env1 svc req st.
Proof.
  split.
  - unfold toISO. reflexivity.
  - intros W svc req st tz. destruct env1 as [fsa gcal dtz from].
    unfold withDefaultTZ. cbn [env_FIREBASE_SERVICE_ACCOUNT env_GCAL_ID
                               env_TWILIO_WHATSAPP_FROM].
    reflexivity.
Qed.

Section Availability.

Variable env : ProcessEnv.
Variable W : Type.
Variable svc : Services W.

Lemma isAvailable_run (startISO endISO : string) (st : St W) :
  isAvailable env svc startISO endISO st
  = let p := listParamsOf env startISO endISO in
    let st' := mkSt (snd (calendar_events_list svc p (world st)))
                    (log st ++ [CalendarList p]) in
    match fst (calendar_events_list svc p (world st)) with
    | inr data => (Ok (Nat.eqb (List.length (overlapping data)) 0), st')
    | inl e => (Throw e, st')
    end.
Proof.
  unfold isAvailable, bind, await, ret, listParamsOf, overlapping. simpl.
  destruct (calendar_events_list svc _ (world st)) as [[e|data] w];
    reflexivity.
Qed.

(** C5.  [isAvailable(start, end)] makes one list query, over the window
    from [start] to [end]; it returns true exactly when the query returns
    no event, false exactly when it returns some, and it rejects with the
    query's own error exactly when the query rejects. *)
Theorem isAvailable_iff_no_event (startISO endISO : string) (st : St W) :
  let query :=
    calendar_events_list svc
      (mkListParams (CALENDAR_ID env) startISO endISO true "startTime")
      (world st) in
  let answer := fst (isAvailable env svc startISO endISO st) in
  (answer = Ok true <->
     exists data, fst query = Ok data /\ overlapping data = [])
  /\ (answer = Ok false <->
     exists data, fst query = Ok data /\ overlapping data <> [])
  /\ (forall err, answer = Throw err <-> fst query = Throw err)
  /\ snd (isAvailable env svc startISO endISO st)
     = mkSt (snd query)
         (log st ++ [CalendarList (mkListParams (CALENDAR_ID env) startISO
                                     endISO true "startTime")]).
Proof.
  cbv zeta. rewrite isAvailable_run. cbv zeta. unfold listParamsOf.
  destruct (calendar_events_list svc _ (world st)) as [[e|data] w]; simpl.
  - repeat split; try discriminate.
    + intros [d [H _]]; discriminate.
    + intros [d [H _]]; discriminate.
    + intros H; inversion H; reflexivity.
    + intros H; inversion H; reflexivity.
  - repeat split; try discriminate.
    + intros H. exists data. split; [reflexivity|].
      destruct (overlapping data); [reflexivity|discriminate].
    + intros [d [E H]]. inversion E; subst. rewrite H. reflexivity.
    + intros H. exists data. split; [reflexivity|].
      destruct (overlapping data); [discriminate|congruence].
    + intros [d [E H]]. inversion E; subst.
      destruct (overlapping d); [congruence|reflexivity].
Qed.

End Availability.

(* ================================================================= *)
(** ** Runs of the handler *)

Ltac run :=
  try unfold Ok, Throw;
  cbv beta iota zeta;
  cbn [fst snd world log negb Nat.eqb List.length].

Section Runs.

Variable LocalTZA : Z -> bool -> Z.
Variable implParse : string -> option Z.
Variable env : ProcessEnv.
Variable W : Type.
Variable svc : Services W.

Lemma book_try_stages (req : Body) :
  book_try LocalTZA implParse env svc req
  = if negb (hasRequired req) then ret resp400
    else
      startISO <- lift (toISO LocalTZA implParse env (date req) (time req) None) ;;
      endISO <- lift (toISOString
                        (endDateOf LocalTZA implParse startISO (durationOf req))) ;;
      available <- isAvailable env svc startISO endISO ;;
      if negb available then ret resp409
      else afterCheck env svc req startISO endISO.
Proof.
  unfold book_try. rewrite presence_test. reflexivity.
Qed.

Lemma window_inv (req : Body) (startISO endISO : string) :
  window LocalTZA implParse env req = Ok (startISO, endISO) ->
  toISO LocalTZA implParse env (date req) (time req) None = Ok startISO
  /\ toISOString (endDateOf LocalTZA implParse startISO (durationOf req))
     = Ok endISO.
Proof.
  unfold window.
  destruct (toISO _ _ _ _ _ _) as [e|s]; [discriminate|].
  destruct (toISOString _) as [e|s'] eqn:E; [discriminate|].
  intros H. inversion H; subst. split; [reflexivity|exact E].
Qed.

(** Once the fields are present and the window is computed, the [try] block
    is the availability check followed by the remaining stages. *)
Lemma book_try_checked (req : Body) (startISO endISO : string) (st : St W) :
  hasRequired req = true ->
  window LocalTZA implParse env req = Ok (startISO, endISO) ->
  book_try LocalTZA implParse env svc req st
  = (available <- isAvailable env svc startISO endISO ;;
     if negb available then ret resp409
     else afterCheck env svc req startISO endISO) st.
Proof.
  intros Hreq Hwin. destruct (window_inv _ _ _ Hwin) as [Hs He].
  rewrite book_try_stages, Hreq. simpl negb. cbv iota.
  unfold bind at 1. unfold lift at 1. rewrite Hs.
  unfold Ok at 1. cbv beta iota.
  unfold bind at 1. unfold lift at 1. rewrite He. reflexivity.
Qed.

(** A window that cannot be computed (an invalid date) is an internal
    error, before any collaborator is called. *)
Lemma book_window_throws (req : Body) (err : Error) (st : St W) :
  hasRequired req = true ->
  window LocalTZA implParse env req = Throw err ->
  book LocalTZA implParse env svc req st
  = (Ok (resp500 err), mkSt (world st) (log st ++ [ConsoleError err])).
Proof.
  intros Hreq Hwin. unfold book, try_catch.
  rewrite book_try_stages, Hreq. simpl negb. cbv iota.
  unfold window in Hwin. unfold bind at 1. unfold lift at 1.
  destruct (toISO _ _ _ _ _ _) as [e|s].
  - inversion Hwin; subst. reflexivity.
  - unfold bind at 1. unfold lift at 1.
    destruct (toISOString _) as [e|s']; [|discriminate].
    inversion Hwin; subst. reflexivity.
Qed.

(** C3.  When the availability check of the requested window returns false,
    the handler answers 409 and stops: the final state is the one the check
    left, whose log has gained the list query and nothing else, so there is
    no datastore write, no calendar insert and no notification. *)
Theorem book_conflict (req : Body) (startISO endISO : string) (st st1 : St W) :
  hasRequired req = true ->
  window LocalTZA implParse env req = Ok (startISO, endISO) ->
  isAvailable env svc startISO endISO st = (Ok false, st1) ->
  book LocalTZA implParse env svc req st
  = (Ok (mkResponse 409 (error_json "Slot not available" None)), st1)
  /\ log st1
     = (log st ++ [CalendarList (mkListParams (CALENDAR_ID env) startISO endISO
                                   true "startTime")])%list.
Proof.
  intros Hreq Hwin Hav. split.
  - unfold book, try_catch. rewrite (book_try_checked _ _ _ _ Hreq Hwin).
    unfold bind at 1. rewrite Hav. reflexivity.
  - rewrite isAvailable_run in Hav. cbv zeta in Hav.
    destruct (fst _); injection Hav as _ Hst; rewrite <- Hst; reflexivity.
Qed.

(** *** The stages, one call at a time *)

Lemma persist_off (req : Body) (st : St W) :
  db env = false -> persist env svc req st = (Ok None, st).
Proof. intros H. unfold persist. rewrite H. reflexivity. Qed.

Lemma persist_on (req : Body) (st : St W) :
  db env = true ->
  persist env svc req st
  = match bookings_add svc (pendingDoc req) (world st) with
    | (inr ref, w) =>
        (Ok (Some ref), mkSt w (log st ++ [DatastoreAdd (pendingDoc req)]))
    | (inl e, w) =>
        (Throw e, mkSt w (log st ++ [DatastoreAdd (pendingDoc req)]))
    end.
Proof.
  intros H. unfold persist. rewrite H. unfold bind, await, ret.
  destruct (bookings_add svc _ _) as [[e|r] w]; reflexivity.
Qed.

Lemma insertEvent_run (req : Body) (startISO endISO : string) (st : St W) :
  insertEvent env svc req startISO endISO st
  = (fst (calendar_events_insert svc (insertParamsOf env req startISO endISO)
            (world st)),
     mkSt (snd (calendar_events_insert svc
                  (insertParamsOf env req startISO endISO) (world st)))
          (log st ++ [CalendarInsert (insertParamsOf env req startISO endISO)])).
Proof.
  unfold insertEvent, await.
  destruct (calendar_events_insert svc _ _); reflexivity.
Qed.

Lemma confirm_on (ref : DocRef) (ev : EventData) (st : St W) :
  db env = true ->
  confirm env svc (Some ref) ev st
  = (fst (bookingRef_update svc ref (mkDocUpdate "confirmed" (data_id ev))
            (world st)),
     mkSt (snd (bookingRef_update svc ref
                  (mkDocUpdate "confirmed" (data_id ev)) (world st)))
          (log st ++ [DatastoreUpdate ref (mkDocUpdate "confirmed" (data_id ev))])).
Proof.
  intros H. unfold confirm. rewrite H. unfold await.
  destruct (bookingRef_update svc _ _ _); reflexivity.
Qed.

Lemma confirm_none (ev : EventData) (st : St W) :
  confirm env svc None ev st = (Ok tt, st).
Proof. unfold confirm. destruct (db env); reflexivity. Qed.

(** The notification stage logs at most one call, a message. *)
Lemma notify_log (req : Body) (st st' : St W) (r : Result unit) :
  notify env svc req st = (r, st') ->
  log st' = log st
  \/ exists number,
       destination (phone req) = Ok number
       /\ log st' = (log st ++ [MessageCreate (confirmationOf env req number)])%list.
Proof.
  unfold notify. destruct (truthy (TWILIO_WHATSAPP_FROM env)).
  - unfold bind, lift, await.
    destruct (destination (phone req)) as [e|number].
    + intros H. injection H as _ H. subst. now left.
    + destruct (messages_create svc _ _) as [r' w].
      intros H. injection H as _ H. subst. right. now exists number.
  - unfold ret. intros H. injection H as _ H. subst. now left.
Qed.

Lemma only_messages (req : Body) (st st' : St W) (r : Result unit) :
  notify env svc req st = (r, st') ->
  exists rest,
    log st' = (log st ++ rest)%list
    /\ forall ef, In ef rest -> exists m, ef = MessageCreate m.
Proof.
  intros H. destruct (notify_log _ _ _ _ H) as [E|[number [_ E]]]; rewrite E.
  - exists []. rewrite app_nil_r. split; [reflexivity|]. intros ef [].
  - exists [MessageCreate (confirmationOf env req number)].
    split; [reflexivity|].
    intros ef [F|[]]. now exists (confirmationOf env req number).
Qed.

(** C8.  If the calendar insert rejects after the datastore write went
    through, the handler answers 500 with the error's message and stops.
    The world is the one the rejected insert left, and the calls made are,
    in order, the list query, the write of the [pending] document and the
    insert, followed only by the error report on the console: the document
    is not updated, not deleted, and no notification is sent. *)
Theorem book_insert_rejected
    (req : Body) (startISO endISO : string) (st : St W)
    (data : ListData) (ref : DocRef) (err : Error) (w1 w2 w3 : W) :
  hasRequired req = true ->
  window LocalTZA implParse env req = Ok (startISO, endISO) ->
  db env = true ->
  calendar_events_list svc (listParamsOf env startISO endISO) (world st)
  = (Ok data, w1) ->
  overlapping data = [] ->
  bookings_add svc (pendingDoc req) w1 = (Ok ref, w2) ->
  calendar_events_insert svc (insertParamsOf env req startISO endISO) w2
  = (Throw err, w3) ->
  book LocalTZA implParse env svc req st
  = (Ok (mkResponse 500 (error_json "Erro interno" (Some (err_message err)))),
     mkSt w3
       (log st ++
        [CalendarList (listParamsOf env startISO endISO);
         DatastoreAdd (pendingDoc req);
         CalendarInsert (insertParamsOf env req startISO endISO);
         ConsoleError err]))
  /\ doc_status (pendingDoc req) = "pending".
Proof.
  intros Hreq Hwin Hdb Hlist Hnone Hadd Hins. split; [|reflexivity].
  unfold book, try_catch. rewrite (book_try_checked _ _ _ _ Hreq Hwin).
  unfold afterCheck, bind, Ok, Throw in *.
  rewrite isAvailable_run. run. rewrite Hlist. run. rewrite Hnone. run.
  rewrite (persist_on _ _ Hdb). run. rewrite Hadd. run.
  rewrite insertEvent_run. run. rewrite Hins. run.
  unfold await, ret, resp500. run.
  repeat rewrite <- app_assoc. reflexivity.
Qed.

(** After the presence test the phone is a string, and the number the
    message goes to is that string with its leading [+]. *)
Lemma destination_normalized (p : string) :
  destination (Some p) = Ok (normalized p).
Proof.
  unfold destination, js_startsWith, normalized, Ok. simpl tpl.
  destruct (startsWith p "+"); reflexivity.
Qed.

Lemma notify_unconfigured (req : Body) (st : St W) :
  truthy (TWILIO_WHATSAPP_FROM env) = false ->
  notify env svc req st = (Ok tt, st).
Proof. intros H. unfold notify. rewrite H. reflexivity. Qed.

Lemma notify_configured (req : Body) (p : string) (st : St W) :
  truthy (TWILIO_WHATSAPP_FROM env) = true ->
  phone req = Some p ->
  notify env svc req st
  = (fst (messages_create svc (confirmationOf env req (normalized p))
            (world st)),
     mkSt (snd (messages_create svc (confirmationOf env req (normalized p))
                  (world st)))
          (log st ++ [MessageCreate (confirmationOf env req (normalized p))])).
Proof.
  intros H P. unfold notify. rewrite H, P. unfold bind, lift.
  rewrite destination_normalized. unfold Ok, await.
  destruct (messages_create svc _ _); reflexivity.
Qed.

(** C1, as the handler has it.  Take a request whose required fields are
    non-empty strings and whose date and time give a window, with
    persistence enabled.  If the list query over the window returns no
    event, and the datastore write, the calendar insert, the datastore
    update and, when a sender is configured, the send of the message each
    return normally, then the answer is 200 with [success: true], the id of
    the inserted event and the id of the created document.  The calls are,
    in order and no others: the list query, the write of the [pending]
    document, the insert, the update of that same document to [confirmed]
    with the event's id, and the message when a sender is configured. *)
Theorem book_confirmed
    (req : Body) (p : string) (startISO endISO : string) (st : St W)
    (data : ListData) (ref : DocRef) (ev : EventData) (w1 w2 w3 w4 w5 : W) :
  hasRequired req = true ->
  phone req = Some p ->
  window LocalTZA implParse env req = Ok (startISO, endISO) ->
  db env = true ->
  calendar_events_list svc (listParamsOf env startISO endISO) (world st)
  = (Ok data, w1) ->
  overlapping data = [] ->
  bookings_add svc (pendingDoc req) w1 = (Ok ref, w2) ->
  calendar_events_insert svc (insertParamsOf env req startISO endISO) w2
  = (Ok ev, w3) ->
  bookingRef_update svc ref (mkDocUpdate "confirmed" (data_id ev)) w3
  = (Ok tt, w4) ->
  (if truthy (TWILIO_WHATSAPP_FROM env)
   then messages_create svc (confirmationOf env req (normalized p)) w4
        = (Ok tt, w5)
   else w5 = w4) ->
  book LocalTZA implParse env svc req st
  = (Ok (mkResponse 200 (success_json true (data_id ev) (Some (ref_id ref)))),
     mkSt w5
       (log st ++
        [CalendarList (listParamsOf env startISO endISO);
         DatastoreAdd (pendingDoc req);
         CalendarInsert (insertParamsOf env req startISO endISO);
         DatastoreUpdate ref (mkDocUpdate "confirmed" (data_id ev))]
        ++ (if truthy (TWILIO_WHATSAPP_FROM env)
            then [MessageCreate (confirmationOf env req (normalized p))]
            else [])))
  /\ doc_status (pendingDoc req) = "pending".
Proof.
  intros Hreq Hp Hwin Hdb Hlist Hnone Hadd Hins Hupd Hsend.
  split; [|reflexivity].
  unfold book, try_catch. rewrite (book_try_checked _ _ _ _ Hreq Hwin).
  unfold afterCheck, bind, Ok, Throw in *.
  rewrite isAvailable_run. run. rewrite Hlist. run. rewrite Hnone. run.
  rewrite (persist_on _ _ Hdb). run. rewrite Hadd. run.
  rewrite insertEvent_run. run. rewrite Hins. run.
  rewrite (confirm_on _ _ _ Hdb). run. rewrite Hupd. run.
  destruct (truthy (TWILIO_WHATSAPP_FROM env)) eqn:Htw.
  - rewrite (notify_configured _ _ _ Htw Hp). run. rewrite Hsend. run.
    unfold ret. repeat rewrite <- app_assoc. reflexivity.
  - rewrite (notify_unconfigured _ _ Htw). run. subst w5.
    unfold ret. repeat rewrite <- app_assoc. reflexivity.
Qed.

(** C4, as the handler has it.  Take a request whose required fields are
    non-empty strings and whose date and time give a window, with
    persistence disabled.  If the list query over the window returns no
    event, and the calendar insert and, when a sender is configured, the
    send of the message return normally, then the event is inserted and
    the answer is 200 with the id of the inserted event and
    [bookingId: null].  The calls are the list query, the insert and the
    message when a sender is configured, and no others: the datastore is
    neither written nor updated. *)
Theorem book_without_datastore
    (req : Body) (p : string) (startISO endISO : string) (st : St W)
    (data : ListData) (ev : EventData) (w1 w2 w3 : W) :
  hasRequired req = true ->
  phone req = Some p ->
  window LocalTZA implParse env req = Ok (startISO, endISO) ->
  db env = false ->
  calendar_events_list svc (listParamsOf env startISO endISO) (world st)
  = (Ok data, w1) ->
  overlapping data = [] ->
  calendar_events_insert svc (insertParamsOf env req startISO endISO) w1
  = (Ok ev, w2) ->
  (if truthy (TWILIO_WHATSAPP_FROM env)
   then messages_create svc (confirmationOf env req (normalized p)) w2
        = (Ok tt, w3)
   else w3 = w2) ->
  book LocalTZA implParse env svc req st
  = (Ok (mkResponse 200 (success_json true (data_id ev) None)),
     mkSt w3
       (log st ++
        [CalendarList (listParamsOf env startISO endISO);
         CalendarInsert (insertParamsOf env req startISO endISO)]
        ++ (if truthy (TWILIO_WHATSAPP_FROM env)
            then [MessageCreate (confirmationOf env req (normalized p))]
            else []))).
Proof.
  intros Hreq Hp Hwin Hdb Hlist Hnone Hins Hsend.
  unfold book, try_catch. rewrite (book_try_checked _ _ _ _ Hreq Hwin).
  unfold afterCheck, bind, Ok, Throw in *.
  rewrite isAvailable_run. run. rewrite Hlist. run. rewrite Hnone. run.
  rewrite (persist_off _ _ Hdb). run.
  rewrite insertEvent_run. run. rewrite Hins. run.
  rewrite confirm_none. run.
  destruct (truthy (TWILIO_WHATSAPP_FROM env)) eqn:Htw.
  - rewrite (notify_configured _ _ _ Htw Hp). run. rewrite Hsend. run.
    unfold ret. repeat rewrite <- app_assoc. reflexivity.
  - rewrite (notify_unconfigured _ _ Htw). run. subst w3.
    unfold ret. repeat rewrite <- app_assoc. reflexivity.
Qed.

End Runs.

(* ================================================================= *)
(** ** Every run *)

Section EveryRun.

Variable LocalTZA : Z -> bool -> Z.
Variable implParse : string -> option Z.
Variable env : ProcessEnv.
Variable W : Type.
Variable svc : Services W.

(** The handler always answers: whatever is thrown inside the [try] block
    is caught and turned into a response. *)
Lemma book_responds (req : Body) (st : St W) :
  exists resp, fst (book LocalTZA implParse env svc req st) = Ok resp.
Proof.
  unfold book, try_catch.
  destruct (book_try LocalTZA implParse env svc req st) as [[e|r] st'].
  - unfold bind, await, ret. simpl. eexists. reflexivity.
  - exists r. reflexivity.
Qed.

(** X10.  Without a datastore no run writes to one or updates one, however
    the other calls turn out. *)
Lemma book_leaves_datastore_alone (req : Body) (st : St W) :
  db env = false ->
  exists added,
    log (snd (book LocalTZA implParse env svc req st)) = (log st ++ added)%list
    /\ forallb (fun ef => negb (touchesDatastore ef)) added = true.
Proof.
  intros Hdb. unfold book, try_catch. rewrite book_try_stages.
  destruct (hasRequired req); cbn [negb].
  2:{ exists []. rewrite app_nil_r. split; reflexivity. }
  unfold bind, lift.
  destruct (toISO _ _ _ _ _ _) as [e|s]; run.
  { exists [ConsoleError e]. split; reflexivity. }
  destruct (toISOString _) as [e|s']; run.
  { exists [ConsoleError e]. split; reflexivity. }
  rewrite isAvailable_run. run.
  destruct (calendar_events_list svc _ _) as [[e|data] w1]; run.
  { unfold await, ret. run. rewrite <- app_assoc.
    eexists. split; reflexivity. }
  destruct (Nat.eqb _ 0); run.
  2:{ unfold ret. run. eexists. split; reflexivity. }
  unfold afterCheck, bind. rewrite persist_off by exact Hdb. run.
  rewrite insertEvent_run. run.
  destruct (calendar_events_insert svc _ _) as [[e|ev] w2]; run.
  { unfold await, ret. run. repeat rewrite <- app_assoc.
    eexists. split; reflexivity. }
  rewrite confirm_none. run.
  destruct (notify env svc req _) as [[e|[]] st3] eqn:N;
    destruct (notify_log _ _ _ _ _ _ _ N) as [E|[number [_ E]]];
    cbn [log] in E; unfold await, ret; run; rewrite E;
    repeat rewrite <- app_assoc; eexists; split; reflexivity.
Qed.

End EveryRun.

(* ================================================================= *)
(** ** The notification's destination *)

Lemma destination_plus (p : string) :
  exists number,
    destination (Some p) = Ok number
    /\ startsWith number "+" = true
    /\ (startsWith p "+" = true -> number = p)
    /\ (startsWith p "+" = false -> number = String.append "+" p).
Proof.
  unfold destination, js_startsWith, Ok. simpl tpl.
  destruct (startsWith p "+") eqn:E.
  - exists p. repeat split; auto. discriminate.
  - exists (String.append "+" p). repeat split; auto.
    + unfold startsWith. simpl. destruct p; reflexivity.
    + discriminate.
Qed.

(* ================================================================= *)
(** ** The window of a booking *)

Section WindowSpan.

Variable LocalTZA : Z -> bool -> Z.
Variable implParse : string -> option Z.
Variable env : ProcessEnv.

Lemma TimeClip_some (t u : Z) : TimeClip t = Some u -> u = t /\ Z.abs t <= maxTime.
Proof.
  unfold TimeClip. destruct (Z.ltb_spec maxTime (Z.abs t)) as [L|L];
    [discriminate|].
  intros E. injection E as E. split; [symmetry; exact E|exact L].
Qed.

Lemma newDate_valid (s : string) (t : Z) :
  newDate LocalTZA implParse s = Some t -> Z.abs t <= maxTime.
Proof.
  unfold newDate. destruct (Date_parse _ _ s) as [u|]; [|discriminate].
  intros H. apply TimeClip_some in H. destruct H as [-> H]. exact H.
Qed.

Lemma toISOString_ok (d : Date) (s : string) :
  toISOString d = Ok s -> exists t, d = Some t /\ s = isoString t.
Proof.
  destruct d as [t|]; simpl; [|discriminate].
  intros H. inversion H. now exists t.
Qed.

(** [setMinutes(getMinutes() + d)] moves the local time by [d] minutes. *)
Lemma setMinutes_getMinutes (t0 d : Z) :
  setMinutes LocalTZA (Some t0)
    (num_add (getMinutes LocalTZA (Some t0)) (Some d))
  = TimeClip (UTC LocalTZA (LocalTime LocalTZA t0 + d * msPerMinute)).
Proof.
  unfold setMinutes, getMinutes, num_add. cbv zeta. f_equal. f_equal.
  set (t := LocalTime LocalTZA t0).
  pose proof (MakeTime_of_time t) as T. pose proof (MakeDate_of_time t) as D.
  unfold MakeDate, MakeTime in *. lia.
Qed.

(** The window of a request: the end is the start plus the duration, plus
    whatever the local offset lost or gained between the two local times. *)
Lemma window_span (req : Body) (startISO endISO : string) :
  window LocalTZA implParse env req = Ok (startISO, endISO) ->
  exists t0 t1,
    newDate LocalTZA implParse startISO = Some t0
    /\ newDate LocalTZA implParse endISO = Some t1
    /\ t1 = t0 + durationOf req * msPerMinute
            + (LocalTZA t0 true
               - LocalTZA (t0 + LocalTZA t0 true + durationOf req * msPerMinute)
                   false).
Proof.
  unfold window, toISO. cbv zeta.
  destruct (toISOString (newDate _ _ _)) as [e|s] eqn:Es; [discriminate|].
  destruct (toISOString (endDateOf _ _ s _)) as [e|s'] eqn:Ee; [discriminate|].
  intros H. inversion H; subst. clear H.
  apply toISOString_ok in Es. destruct Es as [t0 [N0 ->]].
  pose proof (newDate_valid _ _ N0) as V0.
  apply toISOString_ok in Ee. destruct Ee as [t1 [N1 ->]].
  unfold endDateOf in N1. cbv zeta in N1.
  rewrite (newDate_isoString LocalTZA implParse t0 V0) in N1.
  rewrite setMinutes_getMinutes in N1.
  apply TimeClip_some in N1. destruct N1 as [-> V1].
  exists t0. eexists. split; [apply newDate_isoString; exact V0|].
  split; [apply newDate_isoString; exact V1|].
  unfold UTC, LocalTime. lia.
Qed.

End WindowSpan.

(** The window in general.  The event runs from [startISO] to [endISO];
    the duration is the request's, 60 when absent; and the end instant is
    the start instant plus that many minutes, plus the host's local offset
    at the start minus its offset at the local end time.  Whenever the two
    offsets agree the end is exactly the start plus the duration. *)
Lemma window_end
    (LocalTZA : Z -> bool -> Z) (implParse : string -> option Z)
    (env : ProcessEnv) (req : Body) (startISO endISO : string) :
  window LocalTZA implParse env req = Ok (startISO, endISO) ->
  (duration req = None -> durationOf req = 60)
  /\ (forall d, duration req = Some d -> durationOf req = d)
  /\ start_dateTime (resource (insertParamsOf env req startISO endISO))
     = startISO
  /\ end_dateTime (resource (insertParamsOf env req startISO endISO))
     = endISO
  /\ exists t0 t1,
       newDate LocalTZA implParse startISO = Some t0
       /\ newDate LocalTZA implParse endISO = Some t1
       /\ t1 = t0 + durationOf req * msPerMinute
               + (LocalTZA t0 true
                  - LocalTZA (t0 + LocalTZA t0 true
                              + durationOf req * msPerMinute) false)
       /\ (LocalTZA (t0 + LocalTZA t0 true + durationOf req * msPerMinute)
             false
           = LocalTZA t0 true ->
           t1 = t0 + durationOf req * msPerMinute).
Proof.
  intros H.
  split; [unfold durationOf; intros E; rewrite E; reflexivity|].
  split; [unfold durationOf; intros d E; rewrite E; reflexivity|].
  split; [reflexivity|]. split; [reflexivity|].
  destruct (window_span _ _ _ _ _ _ H) as [t0 [t1 [H0 [H1 E]]]].
  exists t0, t1. repeat split; auto. intros F. lia.
Qed.

(** On a host whose offset never changes, every window is as long as the
    duration asked for. *)
Lemma window_end_fixed_offset
    (LocalTZA : Z -> bool -> Z) (implParse : string -> option Z)
    (env : ProcessEnv) (req : Body) (startISO endISO : string) (offset : Z) :
  (forall t isUTC, LocalTZA t isUTC = offset) ->
  window LocalTZA implParse env req = Ok (startISO, endISO) ->
  exists t0,
    newDate LocalTZA implParse startISO = Some t0
    /\ newDate LocalTZA implParse endISO
       = Some (t0 + durationOf req * msPerMinute).
Proof.
  intros F H.
  destruct (window_span _ _ _ _ _ _ H) as [t0 [t1 [H0 [H1 E]]]].
  exists t0. split; [exact H0|]. rewrite H1. f_equal.
  rewrite !F in E. lia.
Qed.

(** The example of the specification: 2025-06-01 at 10:00 for 60 minutes
    is 10:00 to 11:00; on a host on Lisbon time that is 09:00 to 10:00
    UTC. *)
Lemma ana_window_utc :
  window Fake.utc Fake.strict Fake.allOn Fake.ana
  = Ok ("2025-06-01T10:00:00.000Z", "2025-06-01T11:00:00.000Z").
Proof. vm_compute. reflexivity. Qed.

Lemma ana_window_lisbon :
  window Fake.lisbon2025 Fake.strict Fake.allOn Fake.ana
  = Ok ("2025-06-01T09:00:00.000Z", "2025-06-01T10:00:00.000Z").
Proof. vm_compute. reflexivity. Qed.

(** C6 at a failing input.  The handler means the event to end
    [duration] minutes after it starts, and line 74 adds the minutes with
    [setMinutes(getMinutes() + duration)], which edits the minutes of the
    local time.  On a host on Lisbon time, a 60 minute booking for
    2025-10-26 at 01:30 is checked and inserted as an event from 00:30 UTC
    to 02:30 UTC, 120 minutes: the local hour after 01:30 that night is
    one hour further from UTC. *)
Theorem autumn_window_is_two_hours :
  durationOf Fake.autumn = 60
  /\ window Fake.lisbon2025 Fake.strict Fake.allOn Fake.autumn
     = Ok ("2025-10-26T00:30:00.000Z", "2025-10-26T02:30:00.000Z")
  /\ newDate Fake.lisbon2025 Fake.strict "2025-10-26T00:30:00.000Z"
     = Some 1761438600000
  /\ newDate Fake.lisbon2025 Fake.strict "2025-10-26T02:30:00.000Z"
     = Some 1761445800000
  /\ 1761445800000 = 1761438600000 + 120 * msPerMinute
  /\ 1761445800000 <> 1761438600000 + durationOf Fake.autumn * msPerMinute
  /\ fst (book Fake.lisbon2025 Fake.strict Fake.allOn Fake.services
            Fake.autumn (Fake.start Fake.quiet))
     = Ok (mkResponse 200 (success_json true "evt-1" (Some "bk-1")))
  /\ In (CalendarInsert
           (insertParamsOf Fake.allOn Fake.autumn
              "2025-10-26T00:30:00.000Z" "2025-10-26T02:30:00.000Z"))
        (log (snd (book Fake.lisbon2025 Fake.strict Fake.allOn Fake.services
                     Fake.autumn (Fake.start Fake.quiet)))).
Proof.
  split; [reflexivity|]. split; [vm_compute; reflexivity|].
  split; [vm_compute; reflexivity|]. split; [vm_compute; reflexivity|].
  split; [reflexivity|]. split; [vm_compute; discriminate|].
  split; [vm_compute; reflexivity|].
  vm_compute. right. right. left. reflexivity.
Qed.

Lemma window_end_witness :
  (duration Fake.ana = None -> durationOf Fake.ana = 60)
  /\ (forall d, duration Fake.ana = Some d -> durationOf Fake.ana = d)
  /\ start_dateTime
       (resource (insertParamsOf Fake.allOn Fake.ana
                    "2025-06-01T09:00:00.000Z" "2025-06-01T10:00:00.000Z"))
     = "2025-06-01T09:00:00.000Z"
  /\ end_dateTime
       (resource (insertParamsOf Fake.allOn Fake.ana
                    "2025-06-01T09:00:00.000Z" "2025-06-01T10:00:00.000Z"))
     = "2025-06-01T10:00:00.000Z"
  /\ exists t0 t1,
       newDate Fake.lisbon2025 Fake.strict "2025-06-01T09:00:00.000Z" = Some t0
       /\ newDate Fake.lisbon2025 Fake.strict "2025-06-01T10:00:00.000Z"
          = Some t1
       /\ t1 = t0 + durationOf Fake.ana * msPerMinute
               + (Fake.lisbon2025 t0 true
                  - Fake.lisbon2025
                      (t0 + Fake.lisbon2025 t0 true
                       + durationOf Fake.ana * msPerMinute) false)
       /\ (Fake.lisbon2025
             (t0 + Fake.lisbon2025 t0 true + durationOf Fake.ana * msPerMinute)
             false
           = Fake.lisbon2025 t0 true ->
           t1 = t0 + durationOf Fake.ana * msPerMinute).
Proof.
  apply (window_end Fake.lisbon2025 Fake.strict Fake.allOn Fake.ana
           "2025-06-01T09:00:00.000Z" "2025-06-01T10:00:00.000Z").
  vm_compute. reflexivity.
Defined.

(* ================================================================= *)
(** ** The properties at concrete requests *)

Lemma book_missing_field_witness :
  book Fake.utc Fake.strict Fake.allOn Fake.services Fake.noService
    (Fake.start Fake.quiet)
  = (Ok (mkResponse 400 (error_json "Missing required fields" None)),
     Fake.start Fake.quiet).
Proof. apply book_missing_field. left. reflexivity. Defined.

Lemma book_empty_field_witness :
  book Fake.utc Fake.strict Fake.allOn Fake.services Fake.emptyService
    (Fake.start Fake.quiet)
  = (Ok (mkResponse 400 (error_json "Missing required fields" None)),
     Fake.start Fake.quiet)
  /\ forall req',
       service req' = None \/ date req' = None \/ time req' = None \/
       name req' = None \/ phone req' = None ->
       book Fake.utc Fake.strict Fake.allOn Fake.services Fake.emptyService
         (Fake.start Fake.quiet)
       = book Fake.utc Fake.strict Fake.allOn Fake.services req'
           (Fake.start Fake.quiet).
Proof. apply book_empty_field. left. reflexivity. Defined.

Lemma book_conflict_witness :
  book Fake.utc Fake.strict Fake.allOn Fake.services Fake.ana
    (Fake.start Fake.busy)
  = (Ok (mkResponse 409 (error_json "Slot not available" None)),
     mkSt Fake.busy
       [CalendarList (listParamsOf Fake.allOn Fake.anaStart Fake.anaEnd)])
  /\ log (mkSt Fake.busy
            [CalendarList (listParamsOf Fake.allOn Fake.anaStart Fake.anaEnd)])
     = (log (Fake.start Fake.busy)
        ++ [CalendarList (mkListParams (CALENDAR_ID Fake.allOn) Fake.anaStart
                            Fake.anaEnd true "startTime")])%list.
Proof.
  apply (book_conflict Fake.utc Fake.strict Fake.allOn Fake.World
           Fake.services Fake.ana Fake.anaStart Fake.anaEnd);
    vm_compute; reflexivity.
Defined.

Lemma book_insert_rejected_witness :
  book Fake.utc Fake.strict Fake.allOn Fake.services Fake.ana
    (Fake.start Fake.insertFails)
  = (Ok (mkResponse 500
           (error_json "Erro interno" (Some "insert refused"))),
     mkSt (Fake.mkWorld (Some []) false false true false false
             [("bk-1", "pending", None)] [] [])
       [CalendarList (listParamsOf Fake.allOn Fake.anaStart Fake.anaEnd);
        DatastoreAdd (pendingDoc Fake.ana);
        CalendarInsert (insertParamsOf Fake.allOn Fake.ana Fake.anaStart
                          Fake.anaEnd);
        ConsoleError (Fake.refused "insert refused")])
  /\ doc_status (pendingDoc Fake.ana) = "pending".
Proof.
  apply (book_insert_rejected Fake.utc Fake.strict Fake.allOn Fake.World
           Fake.services Fake.ana Fake.anaStart Fake.anaEnd
           (Fake.start Fake.insertFails) (mkListData (Some []))
           (mkDocRef "bk-1") (Fake.refused "insert refused")
           Fake.insertFails
           (Fake.mkWorld (Some []) false false true false false
              [("bk-1", "pending", None)] [] [])
           (Fake.mkWorld (Some []) false false true false false
              [("bk-1", "pending", None)] [] []));
    vm_compute; reflexivity.
Defined.

Lemma book_confirmed_witness :
  book Fake.utc Fake.strict Fake.allOn Fake.services Fake.ana
    (Fake.start Fake.quiet)
  = (Ok (mkResponse 200 (success_json true "evt-1" (Some "bk-1"))),
     mkSt
       (Fake.mkWorld (Some []) false false false false false
          [("bk-1", "confirmed", Some "evt-1")]
          [mkEventData "evt-1" (eventOf Fake.ana Fake.anaStart Fake.anaEnd)]
          [confirmationOf Fake.allOn Fake.ana (normalized "351911111111")])
       (log (Fake.start Fake.quiet) ++
        [CalendarList (listParamsOf Fake.allOn Fake.anaStart Fake.anaEnd);
         DatastoreAdd (pendingDoc Fake.ana);
         CalendarInsert (insertParamsOf Fake.allOn Fake.ana Fake.anaStart
                           Fake.anaEnd);
         DatastoreUpdate (mkDocRef "bk-1")
           (mkDocUpdate "confirmed"
              (data_id (mkEventData "evt-1"
                          (eventOf Fake.ana Fake.anaStart Fake.anaEnd))))]
        ++ (if truthy (TWILIO_WHATSAPP_FROM Fake.allOn)
            then [MessageCreate
                    (confirmationOf Fake.allOn Fake.ana
                       (normalized "351911111111"))]
            else [])))
  /\ doc_status (pendingDoc Fake.ana) = "pending".
Proof.
  apply (book_confirmed Fake.utc Fake.strict Fake.allOn Fake.World
           Fake.services Fake.ana "351911111111" Fake.anaStart Fake.anaEnd
           (Fake.start Fake.quiet)
           (mkListData (Some [])) (mkDocRef "bk-1")
           (mkEventData "evt-1" (eventOf Fake.ana Fake.anaStart Fake.anaEnd))
           Fake.quiet
           (Fake.mkWorld (Some []) false false false false false
              [("bk-1", "pending", None)] [] [])
           (Fake.mkWorld (Some []) false false false false false
              [("bk-1", "pending", None)]
              [mkEventData "evt-1" (eventOf Fake.ana Fake.anaStart Fake.anaEnd)]
              [])
           (Fake.mkWorld (Some []) false false false false false
              [("bk-1", "confirmed", Some "evt-1")]
              [mkEventData "evt-1" (eventOf Fake.ana Fake.anaStart Fake.anaEnd)]
              []));
    vm_compute; reflexivity.
Defined.

Lemma book_without_datastore_witness :
  book Fake.utc Fake.strict Fake.noDatastore Fake.services Fake.ana
    (Fake.start Fake.quiet)
  = (Ok (mkResponse 200 (success_json true "evt-1" None)),
     mkSt
       (Fake.mkWorld (Some []) false false false false false []
          [mkEventData "evt-1" (eventOf Fake.ana Fake.anaStart Fake.anaEnd)]
          [confirmationOf Fake.noDatastore Fake.ana
             (normalized "351911111111")])
       (log (Fake.start Fake.quiet) ++
        [CalendarList (listParamsOf Fake.noDatastore Fake.anaStart
                         Fake.anaEnd);
         CalendarInsert (insertParamsOf Fake.noDatastore Fake.ana
                           Fake.anaStart Fake.anaEnd)]
        ++ (if truthy (TWILIO_WHATSAPP_FROM Fake.noDatastore)
            then [MessageCreate
                    (confirmationOf Fake.noDatastore Fake.ana
                       (normalized "351911111111"))]
            else []))).
Proof.
  apply (book_without_datastore Fake.utc Fake.strict Fake.noDatastore
           Fake.World Fake.services Fake.ana "351911111111"
           Fake.anaStart Fake.anaEnd
           (Fake.start Fake.quiet)
           (mkListData (Some []))
           (mkEventData "evt-1" (eventOf Fake.ana Fake.anaStart Fake.anaEnd))
           Fake.quiet
           (Fake.mkWorld (Some []) false false false false false []
              [mkEventData "evt-1" (eventOf Fake.ana Fake.anaStart Fake.anaEnd)]
              []));
    vm_compute; reflexivity.
Defined.

(** *** Where the claims about the good path stop short *)

(** C1 as stated fails when the notification is refused.  All required
    fields are there, the calendar lists nothing in the window, persistence
    is on; the document is written and confirmed, the event inserted, and
    the answer is 500. *)
Lemma confirmed_but_500 :
  hasRequired Fake.ana = true
  /\ db Fake.allOn = true
  /\ calendar_events_list Fake.services
       (listParamsOf Fake.allOn Fake.anaStart Fake.anaEnd) Fake.sendFails
     = (Ok (mkListData (Some [])), Fake.sendFails)
  /\ fst (book Fake.utc Fake.strict Fake.allOn Fake.services Fake.ana
            (Fake.start Fake.sendFails))
     = Ok (mkResponse 500
             (error_json "Erro interno" (Some "message refused")))
  /\ Fake.docs (world (snd (book Fake.utc Fake.strict Fake.allOn
                              Fake.services Fake.ana
                              (Fake.start Fake.sendFails))))
     = [("bk-1", "confirmed", Some "evt-1")].
Proof. vm_compute. repeat split; reflexivity. Qed.

(** C4 as stated fails in the same way: persistence off, nothing in the
    window, the event inserted, the notification refused, and the answer
    is 500. *)
Lemma inserted_but_500 :
  hasRequired Fake.ana = true
  /\ db Fake.noDatastore = false
  /\ calendar_events_list Fake.services
       (listParamsOf Fake.noDatastore Fake.anaStart Fake.anaEnd) Fake.sendFails
     = (Ok (mkListData (Some [])), Fake.sendFails)
  /\ fst (book Fake.utc Fake.strict Fake.noDatastore Fake.services Fake.ana
            (Fake.start Fake.sendFails))
     = Ok (mkResponse 500
             (error_json "Erro interno" (Some "message refused")))
  /\ List.length
       (Fake.events (world (snd (book Fake.utc Fake.strict Fake.noDatastore
                                   Fake.services Fake.ana
                                   (Fake.start Fake.sendFails)))))
     = 1%nat.
Proof. vm_compute. repeat split; reflexivity. Qed.

(* ================================================================= *)
(** ** The handler, run by run *)

Ltac run_in H :=
  try unfold Ok, Throw in H;
  cbv beta iota zeta in H;
  cbn [fst snd world log negb Nat.eqb List.length] in H.

(* The run has been followed to its end: read the answer and the calls. *)
Ltac finish H :=
  unfold bind, await, ret in H; run_in H;
  repeat rewrite <- app_assoc in H;
  rewrite H; cbn [fst snd log];
  eexists; eexists; split; [reflexivity|]; split; [reflexivity|].

Section Classification.

Variable LocalTZA : Z -> bool -> Z.
Variable implParse : string -> option Z.
Variable env : ProcessEnv.
Variable W : Type.
Variable svc : Services W.

Lemma destination_of_required (req : Body) :
  hasRequired req = true -> exists number, destination (phone req) = Ok number.
Proof.
  unfold hasRequired. intros H.
  repeat (apply andb_prop in H; destruct H as [H ?]).
  destruct (phone req) as [p|]; [|discriminate].
  destruct (destination_plus p) as [number [E _]]. now exists number.
Qed.

Lemma notify_off (req : Body) (st : St W) :
  truthy (TWILIO_WHATSAPP_FROM env) = false ->
  notify env svc req st = (Ok tt, st).
Proof. intros H. unfold notify. rewrite H. reflexivity. Qed.

Lemma notify_on (req : Body) (number : string) (st : St W) :
  truthy (TWILIO_WHATSAPP_FROM env) = true ->
  destination (phone req) = Ok number ->
  notify env svc req st
  = (fst (messages_create svc (confirmationOf env req number) (world st)),
     mkSt (snd (messages_create svc (confirmationOf env req number) (world st)))
          (log st ++ [MessageCreate (confirmationOf env req number)])).
Proof.
  intros H D. unfold notify. rewrite H. unfold bind, lift. rewrite D.
  unfold Ok, await. destruct (messages_create svc _ _); reflexivity.
Qed.

(** Every run is one of the outcomes, and the handler always answers. *)
Lemma book_outcome (req : Body) (st : St W) :
  exists resp calls,
    fst (book LocalTZA implParse env svc req st) = Ok resp
    /\ log (snd (book LocalTZA implParse env svc req st))
       = (log st ++ calls)%list
    /\ Outcome LocalTZA implParse env svc req st resp calls.
Proof.
  destruct (hasRequired req) eqn:Hreq.
  2:{ rewrite (book_rejects _ _ _ _ _ _ _ Hreq). exists resp400, [].
      rewrite app_nil_r. repeat split. now apply missing_fields. }
  destruct (window LocalTZA implParse env req) as [e|[s s']] eqn:Hwin.
  { rewrite (book_window_throws _ _ _ _ _ _ _ _ Hreq Hwin).
    exists (resp500 e), [ConsoleError e]. repeat split.
    now apply invalid_time. }
  destruct (destination_of_required _ Hreq) as [number Hnum].
  remember (book LocalTZA implParse env svc req st) as out eqn:B.
  unfold book, try_catch in B.
  rewrite (book_try_checked _ _ _ _ _ _ _ _ _ Hreq Hwin) in B.
  unfold bind at 1 in B. rewrite isAvailable_run in B. run_in B.
  destruct (calendar_events_list svc _ _) as [[e|data] w1] eqn:Hlist;
    run_in B.
  { finish B. apply list_rejected; [assumption..|]. rewrite Hlist.
    reflexivity. }
  destruct (overlapping data) as [|x xs] eqn:Hov; run_in B.
  2:{ finish B. apply (slot_taken _ _ _ _ _ _ _ _ _ data); try assumption.
      - rewrite Hlist. reflexivity.
      - rewrite Hov. discriminate. }
  assert (Hl : fst (calendar_events_list svc (listParamsOf env s s') (world st))
               = Ok data) by (rewrite Hlist; reflexivity).
  unfold afterCheck, bind in B.
  destruct (db env) eqn:Hdb.
  - rewrite persist_on in B by exact Hdb. run_in B.
    destruct (bookings_add svc _ _) as [[e|ref] w2]; run_in B.
    { finish B. apply (add_rejected _ _ _ _ _ _ _ _ _ data); assumption. }
    rewrite insertEvent_run in B. run_in B.
    destruct (calendar_events_insert svc _ _) as [[e|ev] w3]; run_in B.
    { finish B.
      pose proof (insert_rejected LocalTZA implParse env W svc req st
                    s s' data e Hreq Hwin Hl Hov) as O.
      unfold callsUpToInsert in O. rewrite Hdb in O. exact O. }
    rewrite confirm_on in B by exact Hdb. run_in B.
    destruct (bookingRef_update svc _ _ _) as [[e|[]] w4]; run_in B.
    { finish B.
      exact (update_rejected LocalTZA implParse env W svc req st
               s s' data ref ev e Hreq Hwin Hl Hov Hdb). }
    assert (Href : db env = true <-> Some ref <> None)
      by (split; [discriminate|intros _; exact Hdb]).
    destruct (truthy (TWILIO_WHATSAPP_FROM env)) eqn:Htw.
    + rewrite (notify_on _ _ _ Htw Hnum) in B. run_in B.
      destruct (messages_create svc _ _) as [[e|[]] w5]; run_in B.
      * finish B.
        exact (send_rejected LocalTZA implParse env W svc req st
                 s s' data (Some ref) ev number e Hreq Hwin Hl Hov Href Htw
                 Hnum).
      * finish B.
        exact (booked_and_notified LocalTZA implParse env W svc req st
                 s s' data (Some ref) ev number Hreq Hwin Hl Hov Href Htw
                 Hnum).
    + rewrite (notify_off _ _ Htw) in B. run_in B. finish B.
      exact (booked LocalTZA implParse env W svc req st
               s s' data (Some ref) ev Hreq Hwin Hl Hov Href Htw).
  - rewrite persist_off in B by exact Hdb. run_in B.
    rewrite insertEvent_run in B. run_in B.
    destruct (calendar_events_insert svc _ _) as [[e|ev] w3]; run_in B.
    { finish B.
      pose proof (insert_rejected LocalTZA implParse env W svc req st
                    s s' data e Hreq Hwin Hl Hov) as O.
      unfold callsUpToInsert in O. rewrite Hdb in O. exact O. }
    rewrite confirm_none in B. run_in B.
    assert (Href : db env = true <-> @None DocRef <> None)
      by (rewrite Hdb; split; [discriminate|intros F; now elim F]).
    destruct (truthy (TWILIO_WHATSAPP_FROM env)) eqn:Htw.
    + rewrite (notify_on _ _ _ Htw Hnum) in B. run_in B.
      destruct (messages_create svc _ _) as [[e|[]] w5]; run_in B.
      * finish B.
        exact (send_rejected LocalTZA implParse env W svc req st
                 s s' data None ev number e Hreq Hwin Hl Hov Href Htw Hnum).
      * finish B.
        exact (booked_and_notified LocalTZA implParse env W svc req st
                 s s' data None ev number Hreq Hwin Hl Hov Href Htw Hnum).
    + rewrite (notify_off _ _ Htw) in B. run_in B. finish B.
      exact (booked LocalTZA implParse env W svc req st
               s s' data None ev Hreq Hwin Hl Hov Href Htw).
Qed.

End Classification.

(* ================================================================= *)
(** ** What every run has in common *)

Section EveryAnswer.

Variable LocalTZA : Z -> bool -> Z.
Variable implParse : string -> option Z.
Variable env : ProcessEnv.
Variable W : Type.
Variable svc : Services W.

(** X1.  The handler never rejects: whatever the collaborators do, it
    answers, and the status is 200, 400, 409 or 500. *)
Theorem book_answers (req : Body) (st : St W) :
  exists resp,
    fst (book LocalTZA implParse env svc req st) = Ok resp
    /\ (status resp = 200 \/ status resp = 400 \/ status resp = 409
        \/ status resp = 500).
Proof.
  destruct (book_outcome LocalTZA implParse env W svc req st)
    as [resp [calls [F [_ O]]]].
  exists resp. split; [exact F|]. destruct O; cbn; auto.
Qed.

(** X2.  The answer is 400 exactly when the presence test of the handler
    fails, that is when one of [service], [date], [time], [name], [phone]
    is falsy; no other path answers 400. *)
Theorem book_400_iff (req : Body) (st : St W) :
  (exists resp,
     fst (book LocalTZA implParse env svc req st) = Ok resp
     /\ status resp = 400)
  <-> (truthy (service req) = false \/ truthy (date req) = false
       \/ truthy (time req) = false \/ truthy (name req) = false
       \/ truthy (phone req) = false).
Proof.
  rewrite <- hasRequired_false_iff.
  split.
  - intros [resp [F S]].
    destruct (book_outcome LocalTZA implParse env W svc req st)
      as [resp' [calls [F' [_ O]]]].
    rewrite F in F'. injection F' as <-.
    destruct O; cbn in S; try discriminate. assumption.
  - intros H. exists resp400.
    rewrite (book_rejects _ _ _ _ _ _ _ H). split; reflexivity.
Qed.

(** X3.  The answer is 409 exactly when the fields are present, the window
    is computed, and the list query over it returns at least one event. *)
Theorem book_409_iff (req : Body) (st : St W) :
  (exists resp,
     fst (book LocalTZA implParse env svc req st) = Ok resp
     /\ status resp = 409)
  <-> (hasRequired req = true
       /\ exists startISO endISO data,
            window LocalTZA implParse env req = Ok (startISO, endISO)
            /\ fst (calendar_events_list svc
                      (mkListParams (CALENDAR_ID env) startISO endISO true
                         "startTime")
                      (world st))
               = Ok data
            /\ overlapping data <> []).
Proof.
  split.
  - intros [resp [F S]].
    destruct (book_outcome LocalTZA implParse env W svc req st)
      as [resp' [calls [F' [_ O]]]].
    rewrite F in F'. injection F' as <-.
    destruct O; cbn in S; try discriminate.
    split; [assumption|]. now exists startISO, endISO, data.
  - intros [Hreq [s [e [data [Hwin [Hl Hov]]]]]].
    exists resp409. split; [|reflexivity].
    unfold book, try_catch.
    rewrite (book_try_checked _ _ _ _ _ _ _ _ _ Hreq Hwin).
    unfold bind. rewrite isAvailable_run. cbv zeta.
    unfold listParamsOf in *. rewrite Hl. unfold Ok. cbv beta iota.
    destruct (overlapping data); [now elim Hov|reflexivity].
Qed.

(** X9.  When no sender identity is configured, no run sends a message,
    however the other calls turn out. *)
Theorem book_sends_nothing_without_sender (req : Body) (st : St W) :
  truthy (TWILIO_WHATSAPP_FROM env) = false ->
  exists calls,
    log (snd (book LocalTZA implParse env svc req st)) = (log st ++ calls)%list
    /\ forallb (fun ef => negb (isMessage ef)) calls = true.
Proof.
  intros Htw.
  destruct (book_outcome LocalTZA implParse env W svc req st)
    as [resp [calls [_ [L O]]]].
  exists calls. split; [exact L|].
  destruct O; try congruence;
    unfold callsUpToInsert, callsUpToUpdate;
    try destruct bookingRef; try destruct (db env); reflexivity.
Qed.

(** X11.  In every run the calls are made in the order of the source, each
    at most once: list query, datastore write, insert, datastore update,
    message, error report.  There is no insert and no write without the
    list query, no update without the write and the insert, and no message
    without the insert. *)
Theorem book_call_order (req : Body) (st : St W) :
  exists calls,
    log (snd (book LocalTZA implParse env svc req st)) = (log st ++ calls)%list
    /\ StronglySorted Nat.lt (map placeOf calls)
    /\ (existsb isAdd calls = true -> existsb isList calls = true)
    /\ (existsb isInsert calls = true -> existsb isList calls = true)
    /\ (existsb isUpdate calls = true ->
        existsb isAdd calls = true /\ existsb isInsert calls = true)
    /\ (existsb isMessage calls = true -> existsb isInsert calls = true).
Proof.
  destruct (book_outcome LocalTZA implParse env W svc req st)
    as [resp [calls [_ [L O]]]].
  exists calls. split; [exact L|].
  destruct O; unfold callsUpToInsert, callsUpToUpdate;
    try destruct bookingRef; try destruct (db env); cbn;
    (split; [repeat (constructor; try (unfold Nat.lt; lia))|]);
    repeat split; auto; discriminate.
Qed.

(** X13.  A 500 answer is reported once on the console, as the last thing
    the run does, and its [details] are the message of the error reported;
    no other answer writes to the console. *)
Theorem book_500_reports (req : Body) (st : St W) :
  exists resp calls,
    fst (book LocalTZA implParse env svc req st) = Ok resp
    /\ log (snd (book LocalTZA implParse env svc req st))
       = (log st ++ calls)%list
    /\ ((exists err front,
           resp = mkResponse 500
                    (error_json "Erro interno" (Some (err_message err)))
           /\ calls = (front ++ [ConsoleError err])%list
           /\ forallb (fun ef => negb (isConsoleError ef)) front = true)
        \/ (status resp <> 500
            /\ forallb (fun ef => negb (isConsoleError ef)) calls = true)).
Proof.
  destruct (book_outcome LocalTZA implParse env W svc req st)
    as [resp [calls [F [L O]]]].
  exists resp, calls. split; [exact F|]. split; [exact L|].
  destruct O.
  - right. split; [discriminate|reflexivity].
  - left. exists err, []. repeat split.
  - left. eexists err, [_]. repeat split.
  - right. split; [discriminate|reflexivity].
  - left. eexists err, [_; _]. repeat split.
  - left. exists err, (callsUpToInsert env req startISO endISO).
    repeat split. unfold callsUpToInsert. destruct (db env); reflexivity.
  - left. exists err, (callsUpToUpdate env req startISO endISO (Some ref) ev).
    repeat split.
  - left. exists err,
      (callsUpToUpdate env req startISO endISO bookingRef ev
       ++ [MessageCreate (confirmationOf env req number)])%list.
    repeat split.
    + rewrite <- app_assoc. reflexivity.
    + unfold callsUpToUpdate. destruct bookingRef; reflexivity.
  - right. split; [discriminate|].
    unfold callsUpToUpdate. destruct bookingRef; reflexivity.
  - right. split; [discriminate|].
    unfold callsUpToUpdate. destruct bookingRef; reflexivity.
Qed.

(** X14.  The event inserted is for the very window that was checked: in
    any run, the insert goes to the calendar that was queried, and the
    event starts at the query's [timeMin] and ends at its [timeMax]. *)
Theorem book_books_the_window_checked (req : Body) (st : St W) :
  exists calls,
    log (snd (book LocalTZA implParse env svc req st)) = (log st ++ calls)%list
    /\ forall p q,
         In (CalendarList p) calls -> In (CalendarInsert q) calls ->
         insert_calendarId q = list_calendarId p
         /\ start_dateTime (resource q) = timeMin p
         /\ end_dateTime (resource q) = timeMax p.
Proof.
  destruct (book_outcome LocalTZA implParse env W svc req st)
    as [resp [calls [_ [L O]]]].
  exists calls. split; [exact L|]. intros p q Hp Hq.
  destruct O; unfold callsUpToInsert, callsUpToUpdate in *;
    try destruct bookingRef; try destruct (db env); cbn in Hp, Hq;
    repeat match goal with
           | H : _ \/ _ |- _ => destruct H
           | H : False |- _ => destruct H
           | H : _ = CalendarList _ |- _ => inversion H; clear H
           | H : _ = CalendarInsert _ |- _ => inversion H; clear H
           end;
    subst; repeat split.
Qed.

(** X12.  A 200 answer means that every step ran: the calls are the list
    query, the write of the [pending] document when there is a datastore,
    the insert, the update of that document to [confirmed] with the id of
    the event, and the message when a sender is configured.  The [eventId]
    of the answer is the id used in the update, and the [bookingId] is the
    id of the document updated, [null] when there is no datastore. *)
Theorem book_200_complete (req : Body) (st : St W) (resp : Response) :
  fst (book LocalTZA implParse env svc req st) = Ok resp ->
  status resp = 200 ->
  exists startISO endISO bookingRef ev number,
    window LocalTZA implParse env req = Ok (startISO, endISO)
    /\ (db env = true <-> bookingRef <> None)
    /\ destination (phone req) = Ok number
    /\ resp = mkResponse 200
                (success_json true (data_id ev) (option_map ref_id bookingRef))
    /\ log (snd (book LocalTZA implParse env svc req st))
       = (log st
          ++ callsUpToUpdate env req startISO endISO bookingRef ev
          ++ (if truthy (TWILIO_WHATSAPP_FROM env)
              then [MessageCreate (confirmationOf env req number)]
              else []))%list.
Proof.
  intros F S.
  destruct (book_outcome LocalTZA implParse env W svc req st)
    as [resp' [calls [F' [L O]]]].
  rewrite F in F'. injection F' as <-.
  destruct O; cbn in S; try discriminate.
  - exists startISO, endISO, bookingRef, ev, number.
    repeat split; try assumption; try (apply H3).
    rewrite L, H4. reflexivity.
  - destruct (destination_of_required _ H) as [number Hn].
    exists startISO, endISO, bookingRef, ev, number.
    repeat split; try assumption; try (apply H3).
    rewrite L, H4, app_nil_r. reflexivity.
Qed.

End EveryAnswer.

(* ================================================================= *)
(** ** Where a run can fail *)

Section Failures.

Variable LocalTZA : Z -> bool -> Z.
Variable implParse : string -> option Z.
Variable env : ProcessEnv.
Variable W : Type.
Variable svc : Services W.

Lemma window_throws_RangeError (req : Body) (err : Error) :
  window LocalTZA implParse env req = Throw err ->
  err = RangeError_invalid_time.
Proof.
  unfold window, toISO. cbv zeta.
  destruct (newDate LocalTZA implParse _) as [t|]; simpl.
  - destruct (endDateOf _ _ _ _) as [t'|]; simpl; [discriminate|].
    intros H. now inversion H.
  - intros H. now inversion H.
Qed.

(** X5.  When the date and the time make no valid date, or the end of the
    window falls outside the range of dates, the answer is 500 with
    [details] ["Invalid time value"], the error is reported on the console,
    and no collaborator is called. *)
Theorem book_invalid_time (req : Body) (st : St W) :
  hasRequired req = true ->
  (forall startISO endISO,
     window LocalTZA implParse env req <> Ok (startISO, endISO)) ->
  book LocalTZA implParse env svc req st
  = (Ok (mkResponse 500
           (error_json "Erro interno" (Some "Invalid time value"))),
     mkSt (world st)
       (log st ++ [ConsoleError (mkError "RangeError" "Invalid time value")])).
Proof.
  intros Hreq Hno.
  destruct (window LocalTZA implParse env req) as [e|[s s']] eqn:Hwin.
  - rewrite (book_window_throws _ _ _ _ _ _ _ _ Hreq Hwin).
    rewrite (window_throws_RangeError _ _ Hwin). reflexivity.
  - now elim (Hno s s').
Qed.

(** X4.  When the list query rejects, the answer is 500 with the message of
    its error; the only call made is the query, and the error is reported
    on the console: nothing is written, inserted or sent. *)
Theorem book_list_rejected
    (req : Body) (startISO endISO : string) (st : St W)
    (err : Error) (w1 : W) :
  hasRequired req = true ->
  window LocalTZA implParse env req = Ok (startISO, endISO) ->
  calendar_events_list svc
    (mkListParams (CALENDAR_ID env) startISO endISO true "startTime") (world st)
  = (Throw err, w1) ->
  book LocalTZA implParse env svc req st
  = (Ok (mkResponse 500 (error_json "Erro interno" (Some (err_message err)))),
     mkSt w1
       (log st ++
        [CalendarList (mkListParams (CALENDAR_ID env) startISO endISO true
                         "startTime");
         ConsoleError err])).
Proof.
  intros Hreq Hwin Hlist.
  unfold book, try_catch. rewrite (book_try_checked _ _ _ _ _ _ _ _ _ Hreq Hwin).
  unfold bind, Ok, Throw in *.
  rewrite isAvailable_run. run. unfold listParamsOf. rewrite Hlist. run.
  unfold await, ret. run. repeat rewrite <- app_assoc. reflexivity.
Qed.

(** X6.  When the datastore write rejects, the answer is 500 with the
    message of its error and the booking is abandoned: the calls are the
    list query and the write, and no event is inserted. *)
Theorem book_add_rejected
    (req : Body) (startISO endISO : string) (st : St W)
    (data : ListData) (err : Error) (w1 w2 : W) :
  hasRequired req = true ->
  window LocalTZA implParse env req = Ok (startISO, endISO) ->
  db env = true ->
  calendar_events_list svc (listParamsOf env startISO endISO) (world st)
  = (Ok data, w1) ->
  overlapping data = [] ->
  bookings_add svc (pendingDoc req) w1 = (Throw err, w2) ->
  book LocalTZA implParse env svc req st
  = (Ok (mkResponse 500 (error_json "Erro interno" (Some (err_message err)))),
     mkSt w2
       (log st ++
        [CalendarList (listParamsOf env startISO endISO);
         DatastoreAdd (pendingDoc req);
         ConsoleError err])).
Proof.
  intros Hreq Hwin Hdb Hlist Hnone Hadd.
  unfold book, try_catch. rewrite (book_try_checked _ _ _ _ _ _ _ _ _ Hreq Hwin).
  unfold afterCheck, bind, Ok, Throw in *.
  rewrite isAvailable_run. run. rewrite Hlist. run. rewrite Hnone. run.
  rewrite persist_on by exact Hdb. run. rewrite Hadd. run.
  unfold await, ret. run. repeat rewrite <- app_assoc. reflexivity.
Qed.

(** X7.  When the update of the document rejects, the answer is 500 with
    the message of its error although the event is in the calendar: the
    calls are the list query, the write, the insert and the update, and no
    message is sent. *)
Theorem book_update_rejected
    (req : Body) (startISO endISO : string) (st : St W)
    (data : ListData) (ref : DocRef) (ev : EventData) (err : Error)
    (w1 w2 w3 w4 : W) :
  hasRequired req = true ->
  window LocalTZA implParse env req = Ok (startISO, endISO) ->
  db env = true ->
  calendar_events_list svc (listParamsOf env startISO endISO) (world st)
  = (Ok data, w1) ->
  overlapping data = [] ->
  bookings_add svc (pendingDoc req) w1 = (Ok ref, w2) ->
  calendar_events_insert svc (insertParamsOf env req startISO endISO) w2
  = (Ok ev, w3) ->
  bookingRef_update svc ref (mkDocUpdate "confirmed" (data_id ev)) w3
  = (Throw err, w4) ->
  book LocalTZA implParse env svc req st
  = (Ok (mkResponse 500 (error_json "Erro interno" (Some (err_message err)))),
     mkSt w4
       (log st ++
        [CalendarList (listParamsOf env startISO endISO);
         DatastoreAdd (pendingDoc req);
         CalendarInsert (insertParamsOf env req startISO endISO);
         DatastoreUpdate ref (mkDocUpdate "confirmed" (data_id ev));
         ConsoleError err])).
Proof.
  intros Hreq Hwin Hdb Hlist Hnone Hadd Hins Hupd.
  unfold book, try_catch. rewrite (book_try_checked _ _ _ _ _ _ _ _ _ Hreq Hwin).
  unfold afterCheck, bind, Ok, Throw in *.
  rewrite isAvailable_run. run. rewrite Hlist. run. rewrite Hnone. run.
  rewrite persist_on by exact Hdb. run. rewrite Hadd. run.
  rewrite insertEvent_run. run. rewrite Hins. run.
  rewrite confirm_on by exact Hdb. run. rewrite Hupd. run.
  unfold await, ret. run. repeat rewrite <- app_assoc. reflexivity.
Qed.

(** X8.  When the message is refused, the answer is 500 with the message of
    the error although the booking is complete: with a datastore, the calls
    are the list query, the write, the insert, the update to [confirmed]
    and the message. *)
Theorem book_send_rejected
    (req : Body) (startISO endISO : string) (st : St W)
    (data : ListData) (ref : DocRef) (ev : EventData) (number : string)
    (err : Error) (w1 w2 w3 w4 w5 : W) :
  hasRequired req = true ->
  window LocalTZA implParse env req = Ok (startISO, endISO) ->
  db env = true ->
  truthy (TWILIO_WHATSAPP_FROM env) = true ->
  destination (phone req) = Ok number ->
  calendar_events_list svc (listParamsOf env startISO endISO) (world st)
  = (Ok data, w1) ->
  overlapping data = [] ->
  bookings_add svc (pendingDoc req) w1 = (Ok ref, w2) ->
  calendar_events_insert svc (insertParamsOf env req startISO endISO) w2
  = (Ok ev, w3) ->
  bookingRef_update svc ref (mkDocUpdate "confirmed" (data_id ev)) w3
  = (Ok tt, w4) ->
  messages_create svc (confirmationOf env req number) w4 = (Throw err, w5) ->
  book LocalTZA implParse env svc req st
  = (Ok (mkResponse 500 (error_json "Erro interno" (Some (err_message err)))),
     mkSt w5
       (log st ++
        [CalendarList (listParamsOf env startISO endISO);
         DatastoreAdd (pendingDoc req);
         CalendarInsert (insertParamsOf env req startISO endISO);
         DatastoreUpdate ref (mkDocUpdate "confirmed" (data_id ev));
         MessageCreate (confirmationOf env req number);
         ConsoleError err])).
Proof.
  intros Hreq Hwin Hdb Htw Hnum Hlist Hnone Hadd Hins Hupd Hsend.
  unfold book, try_catch. rewrite (book_try_checked _ _ _ _ _ _ _ _ _ Hreq Hwin).
  unfold afterCheck, bind, Ok, Throw in *.
  rewrite isAvailable_run. run. rewrite Hlist. run. rewrite Hnone. run.
  rewrite persist_on by exact Hdb. run. rewrite Hadd. run.
  rewrite insertEvent_run. run. rewrite Hins. run.
  rewrite confirm_on by exact Hdb. run. rewrite Hupd. run.
  rewrite (notify_on _ _ _ _ _ _ Htw Hnum). run. rewrite Hsend. run.
  unfold await, ret. run. repeat rewrite <- app_assoc. reflexivity.
Qed.

(** X15.  What [toISO] returns reads back as the instant it was made from:
    the string is the ISO form of the time value of the date built from
    [dateStr] and [timeStr], and [new Date] of it has that same time value.
    The end of the window is therefore computed from the start itself. *)
Theorem toISO_reads_back
    (dateStr timeStr : jsstr) (tz : option string) (startISO : string) :
  toISO LocalTZA implParse env dateStr timeStr tz = Ok startISO ->
  exists t0,
    newDate LocalTZA implParse
      (String.concat "" [tpl dateStr; "T"; tpl timeStr; ":00"]) = Some t0
    /\ startISO = isoString t0
    /\ newDate LocalTZA implParse startISO = Some t0.
Proof.
  unfold toISO. cbv zeta. intros H.
  apply toISOString_ok in H. destruct H as [t0 [N ->]].
  exists t0. split; [exact N|]. split; [reflexivity|].
  apply newDate_isoString. apply (newDate_valid _ _ _ _ N).
Qed.



End Failures.

(* ================================================================= *)
(** ** The same, at concrete requests *)

Lemma book_invalid_time_witness :
  book Fake.utc Fake.strict Fake.allOn Fake.services Scenario.noDate
    (Fake.start Fake.quiet)
  = (Ok (mkResponse 500
           (error_json "Erro interno" (Some "Invalid time value"))),
     mkSt (world (Fake.start Fake.quiet))
       (log (Fake.start Fake.quiet)
        ++ [ConsoleError (mkError "RangeError" "Invalid time value")])).
Proof.
  apply book_invalid_time.
  - reflexivity.
  - intros s e. vm_compute. discriminate.
Defined.

Lemma book_list_rejected_witness :
  book Fake.utc Fake.strict Fake.allOn Fake.services Fake.ana
    (Fake.start Scenario.listFails)
  = (Ok (mkResponse 500
           (error_json "Erro interno" (Some "calendar unreachable"))),
     mkSt Scenario.listFails
       (log (Fake.start Scenario.listFails) ++
        [CalendarList (mkListParams (CALENDAR_ID Fake.allOn) Fake.anaStart
                         Fake.anaEnd true "startTime");
         ConsoleError (Fake.refused "calendar unreachable")])).
Proof.
  apply (book_list_rejected Fake.utc Fake.strict Fake.allOn Fake.World
           Fake.services Fake.ana Fake.anaStart Fake.anaEnd
           (Fake.start Scenario.listFails)
           (Fake.refused "calendar unreachable") Scenario.listFails);
    vm_compute; reflexivity.
Defined.

Lemma book_add_rejected_witness :
  book Fake.utc Fake.strict Fake.allOn Fake.services Fake.ana
    (Fake.start Scenario.addFails)
  = (Ok (mkResponse 500
           (error_json "Erro interno" (Some "datastore unavailable"))),
     mkSt Scenario.addFails
       (log (Fake.start Scenario.addFails) ++
        [CalendarList (listParamsOf Fake.allOn Fake.anaStart Fake.anaEnd);
         DatastoreAdd (pendingDoc Fake.ana);
         ConsoleError (Fake.refused "datastore unavailable")])).
Proof.
  apply (book_add_rejected Fake.utc Fake.strict Fake.allOn Fake.World
           Fake.services Fake.ana Fake.anaStart Fake.anaEnd
           (Fake.start Scenario.addFails) (mkListData (Some []))
           (Fake.refused "datastore unavailable")
           Scenario.addFails Scenario.addFails);
    vm_compute; reflexivity.
Defined.

Lemma book_update_rejected_witness :
  let pending :=
    Fake.mkWorld (Some []) false false false true false
      [("bk-1", "pending", None)] [] [] in
  let inserted :=
    Fake.mkWorld (Some []) false false false true false
      [("bk-1", "pending", None)]
      [mkEventData "evt-1" (eventOf Fake.ana Fake.anaStart Fake.anaEnd)] [] in
  book Fake.utc Fake.strict Fake.allOn Fake.services Fake.ana
    (Fake.start Scenario.updateFails)
  = (Ok (mkResponse 500
           (error_json "Erro interno" (Some "update refused"))),
     mkSt inserted
       (log (Fake.start Scenario.updateFails) ++
        [CalendarList (listParamsOf Fake.allOn Fake.anaStart Fake.anaEnd);
         DatastoreAdd (pendingDoc Fake.ana);
         CalendarInsert (insertParamsOf Fake.allOn Fake.ana Fake.anaStart
                           Fake.anaEnd);
         DatastoreUpdate (mkDocRef "bk-1")
           (mkDocUpdate "confirmed"
              (data_id (mkEventData "evt-1"
                          (eventOf Fake.ana Fake.anaStart Fake.anaEnd))));
         ConsoleError (Fake.refused "update refused")])).
Proof.
  intros pending inserted.
  apply (book_update_rejected Fake.utc Fake.strict Fake.allOn Fake.World
           Fake.services Fake.ana Fake.anaStart Fake.anaEnd
           (Fake.start Scenario.updateFails) (mkListData (Some []))
           (mkDocRef "bk-1")
           (mkEventData "evt-1" (eventOf Fake.ana Fake.anaStart Fake.anaEnd))
           (Fake.refused "update refused")
           Scenario.updateFails pending inserted inserted);
    vm_compute; reflexivity.
Defined.

Lemma book_send_rejected_witness :
  let pending :=
    Fake.mkWorld (Some []) false false false false true
      [("bk-1", "pending", None)] [] [] in
  let inserted :=
    Fake.mkWorld (Some []) false false false false true
      [("bk-1", "pending", None)]
      [mkEventData "evt-1" (eventOf Fake.ana Fake.anaStart Fake.anaEnd)] [] in
  let confirmed :=
    Fake.mkWorld (Some []) false false false false true
      [("bk-1", "confirmed", Some "evt-1")]
      [mkEventData "evt-1" (eventOf Fake.ana Fake.anaStart Fake.anaEnd)] [] in
  book Fake.utc Fake.strict Fake.allOn Fake.services Fake.ana
    (Fake.start Fake.sendFails)
  = (Ok (mkResponse 500
           (error_json "Erro interno" (Some "message refused"))),
     mkSt confirmed
       (log (Fake.start Fake.sendFails) ++
        [CalendarList (listParamsOf Fake.allOn Fake.anaStart Fake.anaEnd);
         DatastoreAdd (pendingDoc Fake.ana);
         CalendarInsert (insertParamsOf Fake.allOn Fake.ana Fake.anaStart
                           Fake.anaEnd);
         DatastoreUpdate (mkDocRef "bk-1")
           (mkDocUpdate "confirmed"
              (data_id (mkEventData "evt-1"
                          (eventOf Fake.ana Fake.anaStart Fake.anaEnd))));
         MessageCreate (confirmationOf Fake.allOn Fake.ana "+351911111111");
         ConsoleError (Fake.refused "message refused")])).
Proof.
  intros pending inserted confirmed.
  apply (book_send_rejected Fake.utc Fake.strict Fake.allOn Fake.World
           Fake.services Fake.ana Fake.anaStart Fake.anaEnd
           (Fake.start Fake.sendFails) (mkListData (Some []))
           (mkDocRef "bk-1")
           (mkEventData "evt-1" (eventOf Fake.ana Fake.anaStart Fake.anaEnd))
           "+351911111111" (Fake.refused "message refused")
           Fake.sendFails pending inserted confirmed confirmed);
    vm_compute; reflexivity.
Defined.

Lemma book_sends_nothing_without_sender_witness :
  exists calls,
    log (snd (book Fake.utc Fake.strict Fake.bare Fake.services Fake.ana
                (Fake.start Fake.quiet)))
    = (log (Fake.start Fake.quiet) ++ calls)%list
    /\ forallb (fun ef => negb (isMessage ef)) calls = true.
Proof.
  apply (book_sends_nothing_without_sender Fake.utc Fake.strict Fake.bare
           Fake.World Fake.services Fake.ana (Fake.start Fake.quiet)).
  reflexivity.
Defined.

Lemma book_leaves_datastore_alone_witness :
  exists added,
    log (snd (book Fake.utc Fake.strict Fake.noDatastore Fake.services
                Fake.ana (Fake.start Fake.quiet)))
    = (log (Fake.start Fake.quiet) ++ added)%list
    /\ forallb (fun ef => negb (touchesDatastore ef)) added = true.
Proof.
  apply (book_leaves_datastore_alone Fake.utc Fake.strict Fake.noDatastore
           Fake.World Fake.services Fake.ana (Fake.start Fake.quiet)).
  reflexivity.
Defined.

Lemma book_200_complete_witness :
  exists startISO endISO bookingRef ev number,
    window Fake.utc Fake.strict Fake.allOn Fake.ana = Ok (startISO, endISO)
    /\ (db Fake.allOn = true <-> bookingRef <> None)
    /\ destination (phone Fake.ana) = Ok number
    /\ mkResponse 200 (success_json true "evt-1" (Some "bk-1"))
       = mkResponse 200
           (success_json true (data_id ev) (option_map ref_id bookingRef))
    /\ log (snd (book Fake.utc Fake.strict Fake.allOn Fake.services Fake.ana
                   (Fake.start Fake.quiet)))
       = (log (Fake.start Fake.quiet)
          ++ callsUpToUpdate Fake.allOn Fake.ana startISO endISO bookingRef ev
          ++ (if truthy (TWILIO_WHATSAPP_FROM Fake.allOn)
              then [MessageCreate (confirmationOf Fake.allOn Fake.ana number)]
              else []))%list.
Proof.
  apply (book_200_complete Fake.utc Fake.strict Fake.allOn Fake.World
           Fake.services Fake.ana (Fake.start Fake.quiet)
           (mkResponse 200 (success_json true "evt-1" (Some "bk-1"))));
    vm_compute; reflexivity.
Defined.

Lemma toISO_reads_back_witness :
  exists t0,
    newDate Fake.lisbon2025 Fake.strict
      (String.concat "" [tpl (Some "2025-06-01"); "T"; tpl (Some "10:00"); ":00"])
    = Some t0
    /\ "2025-06-01T09:00:00.000Z" = isoString t0
    /\ newDate Fake.lisbon2025 Fake.strict "2025-06-01T09:00:00.000Z" = Some t0.
Proof.
  apply (toISO_reads_back Fake.lisbon2025 Fake.strict Fake.allOn
           (Some "2025-06-01") (Some "10:00") None).
  vm_compute. reflexivity.
Defined.


(* ================================================================= *)
(** ** Where the confirmation goes *)

Lemma normalized_plus (p : string) : startsWith (normalized p) "+" = true.
Proof.
  unfold normalized. destruct (startsWith p "+") eqn:E; [exact E|].
  unfold startsWith. simpl. destruct p; reflexivity.
Qed.

Lemma sentTo_app (a b : list Effect) :
  sentTo (a ++ b) = (sentTo a ++ sentTo b)%list.
Proof.
  induction a as [|ef a IH]; [reflexivity|].
  destruct ef; simpl; rewrite IH; reflexivity.
Qed.

Lemma sentTo_callsUpToUpdate
    (env : ProcessEnv) (req : Body) (s e : string)
    (bookingRef : option DocRef) (ev : EventData) :
  sentTo (callsUpToUpdate env req s e bookingRef ev) = [].
Proof. unfold callsUpToUpdate. destruct bookingRef; reflexivity. Qed.

Lemma sentTo_callsUpToInsert
    (env : ProcessEnv) (req : Body) (s e : string) :
  sentTo (callsUpToInsert env req s e) = [].
Proof. unfold callsUpToInsert. destruct (db env); reflexivity. Qed.

(** C7.  Whatever the request whose phone is the string [p] and whatever
    the collaborators do, a run of the handler sends at most one message,
    and it sends it to [whatsapp:] followed by the number with a leading
    [+]: [p] itself when [p] already starts with [+], [+] and [p]
    otherwise.  A run that answers 200 with a sender configured has sent
    it.  So a request with phone ["351912345678"] is confirmed to
    ["whatsapp:+351912345678"], and so is one with ["+351912345678"]. *)
Theorem book_message_destination
    (LocalTZA : Z -> bool -> Z) (implParse : string -> option Z)
    (env : ProcessEnv) (W : Type) (svc : Services W)
    (req : Body) (p : string) (st : St W) :
  phone req = Some p ->
  (exists calls,
     log (snd (book LocalTZA implParse env svc req st)) = (log st ++ calls)%list
     /\ (sentTo calls = []
         \/ sentTo calls = [String.append "whatsapp:" (normalized p)])
     /\ (truthy (TWILIO_WHATSAPP_FROM env) = true ->
         (exists resp,
            fst (book LocalTZA implParse env svc req st) = Ok resp
            /\ status resp = 200) ->
         sentTo calls = [String.append "whatsapp:" (normalized p)]))
  /\ startsWith (normalized p) "+" = true
  /\ (startsWith p "+" = true -> normalized p = p)
  /\ (startsWith p "+" = false -> normalized p = String.append "+" p)
  /\ sentTo (log (snd (book Fake.utc Fake.strict Fake.allOn Fake.services
                         Scenario.plainPhone (Fake.start Fake.quiet))))
     = ["whatsapp:+351912345678"]
  /\ sentTo (log (snd (book Fake.utc Fake.strict Fake.allOn Fake.services
                         Scenario.plusPhone (Fake.start Fake.quiet))))
     = ["whatsapp:+351912345678"].
Proof.
  intros Hp.
  split; [|split; [apply normalized_plus|]].
  - destruct (book_outcome LocalTZA implParse env W svc req st)
      as [resp [calls [F [L O]]]].
    exists calls. split; [exact L|].
    assert (N : forall number,
               destination (phone req) = Ok number -> number = normalized p).
    { intros number D. rewrite Hp, destination_normalized in D.
      now inversion D. }
    destruct O.
    + split; [now left|]. intros _ [r [F' S]]. rewrite F in F'.
      injection F' as <-. discriminate.
    + split; [now left|]. intros _ [r [F' S]]. rewrite F in F'.
      injection F' as <-. discriminate.
    + split; [now left|]. intros _ [r [F' S]]. rewrite F in F'.
      injection F' as <-. discriminate.
    + split; [now left|]. intros _ [r [F' S]]. rewrite F in F'.
      injection F' as <-. discriminate.
    + split; [now left|]. intros _ [r [F' S]]. rewrite F in F'.
      injection F' as <-. discriminate.
    + rewrite sentTo_app, sentTo_callsUpToInsert.
      split; [now left|]. intros _ [r [F' S]]. rewrite F in F'.
      injection F' as <-. discriminate.
    + rewrite sentTo_app, sentTo_callsUpToUpdate.
      split; [now left|]. intros _ [r [F' S]]. rewrite F in F'.
      injection F' as <-. discriminate.
    + rewrite sentTo_app, sentTo_callsUpToUpdate.
      rewrite (N number) by assumption.
      split; [now right|]. intros _ _. reflexivity.
    + rewrite sentTo_app, sentTo_callsUpToUpdate.
      rewrite (N number) by assumption.
      split; [now right|]. intros _ _. reflexivity.
    + rewrite sentTo_callsUpToUpdate.
      split; [now left|]. intros Htw _. congruence.
  - split; [|split; [|split]].
    + intros E. unfold normalized. rewrite E. reflexivity.
    + intros E. unfold normalized. rewrite E. reflexivity.
    + vm_compute. reflexivity.
    + vm_compute. reflexivity.
Qed.

Lemma book_message_destination_witness :
  (exists calls,
     log (snd (book Fake.utc Fake.strict Fake.allOn Fake.services Fake.ana
                 (Fake.start Fake.quiet)))
     = (log (Fake.start Fake.quiet) ++ calls)%list
     /\ (sentTo calls = []
         \/ sentTo calls
            = [String.append "whatsapp:" (normalized "351911111111")])
     /\ (truthy (TWILIO_WHATSAPP_FROM Fake.allOn) = true ->
         (exists resp,
            fst (book Fake.utc Fake.strict Fake.allOn Fake.services Fake.ana
                   (Fake.start Fake.quiet)) = Ok resp
            /\ status resp = 200) ->
         sentTo calls
         = [String.append "whatsapp:" (normalized "351911111111")]))
  /\ startsWith (normalized "351911111111") "+" = true
  /\ (startsWith "351911111111" "+" = true
      -> normalized "351911111111" = "351911111111")
  /\ (startsWith "351911111111" "+" = false
      -> normalized "351911111111" = String.append "+" "351911111111")
  /\ sentTo (log (snd (book Fake.utc Fake.strict Fake.allOn Fake.services
                         Scenario.plainPhone (Fake.start Fake.quiet))))
     = ["whatsapp:+351912345678"]
  /\ sentTo (log (snd (book Fake.utc Fake.strict Fake.allOn Fake.services
                         Scenario.plusPhone (Fake.start Fake.quiet))))
     = ["whatsapp:+351912345678"].
Proof.
  apply (book_message_destination Fake.utc Fake.strict Fake.allOn Fake.World
           Fake.services Fake.ana "351911111111" (Fake.start Fake.quiet)).
  reflexivity.
Defined.
